(** * Corporate expense tracker

    A shallow embedding of the expense workflow of the repository:

    - [ExpenseContext] (the provider with [loadExpenses], [getExpenseById],
      [createExpense], [updateExpense], [deleteExpense], [submitExpense],
      [approveExpense], [rejectExpense]),
    - [AuthContext.checkRole],
    - the guards and the reject handler of the expense detail page,
    - [validateForm] and [handleSubmit] of the expense form,
    - the summary statistics of the report page,
    - the accounts and the session of [AuthContext] ([addUser], [login],
      [logout], the effect on mount), the effect on mount of the expense
      provider, the effect that fills the edit form, the filters and the
      selectors of the report page and the counters of the dashboard.

    Modelling conventions.

    - The provider is a state machine: its state [Ctx] holds the session
      user, the [localStorage] entry ['expenses'] and the React state
      ([expenses], [loading], [error]).  Every asynchronous operation is
      one atomic step [Ctx -> Outcome _ * Ctx]; the simulated network
      delay is not modelled.
    - [localStorage] holds a JSON text.  The state keeps the array that
      was handed to [JSON.stringify], [None] when the key is absent; the
      array that [JSON.parse] gives for that text is [persisted] of it.
      The two differ in the amounts only, and only for an amount that is
      [NaN], an infinity or [-0]: the properties that speak of what the
      text holds for an amount are stated on [persisted].
    - A JavaScript [number] is a member of the class [JsNumber].  The
      instance the program runs on is [float] (IEEE 754 binary64); the
      instance [Z] is exact arithmetic.
    - Strings are sequences of code units below 256.
    - A control of the detail page exists only while its guard holds and
      the provider is not loading (the page is a spinner then); a user
      action on the page is a [Click], which runs the handler when the
      control is rendered and is no step at all otherwise.
    - [Date.now()] and [new Date().toISOString()] are read from the
      outside: the operations take the clock readings as arguments. *)

From Stdlib Require Import ZArith Ascii String Floats.PrimFloat.
From stdpp Require Import base option list strings.

Set Warnings "-inexact-float".
#[local] Open Scope string_scope.
#[local] Open Scope list_scope.

(** ** Numbers *)

(** What the program asks of a [number]: the literal [0], [+], [<=], [<],
    [isNaN] and the truthiness test behind [x || 0]. *)
Class JsNumber (num : Type) := {
  num_zero : num;
  num_add : num -> num -> num;
  num_leb : num -> num -> bool;
  num_ltb : num -> num -> bool;
  num_isNaN : num -> bool;
  num_truthy : num -> bool
}.

(** binary64, the numbers of the running program: [0], [-0] and [NaN] are
    falsy. *)
#[global] Instance float_JsNumber : JsNumber float := {
  num_zero := 0%float;
  num_add := PrimFloat.add;
  num_leb := PrimFloat.leb;
  num_ltb := PrimFloat.ltb;
  num_isNaN := PrimFloat.is_nan;
  num_truthy := fun x => negb (PrimFloat.is_zero x || PrimFloat.is_nan x)
}.

(** Exact integers (an amount counted in cents, say). *)
#[global] Instance Z_JsNumber : JsNumber Z := {
  num_zero := 0%Z;
  num_add := Z.add;
  num_leb := Z.leb;
  num_ltb := Z.ltb;
  num_isNaN := fun _ => false;
  num_truthy := fun x => negb (x =? 0)%Z
}.

(** Arithmetic without rounding. *)
Class ExactNumber (num : Type) `{JsNumber num} := {
  num_add_assoc : forall x y z : num,
    num_add x (num_add y z) = num_add (num_add x y) z;
  num_add_comm : forall x y : num, num_add x y = num_add y x;
  num_add_zero_l : forall x : num, num_add num_zero x = x;
  num_falsy_zero : forall x : num, num_truthy x = false -> x = num_zero
}.

(** ** Data model *)

Inductive UserRole := employee | manager | admin.
Inductive ExpenseStatus := draft | submitted | approved | rejected.
Inductive ExpenseCategory :=
  travel | meals | accommodation | equipment | office | other.

#[global] Instance UserRole_eq_dec : EqDecision UserRole.
Proof. solve_decision. Defined.
#[global] Instance ExpenseStatus_eq_dec : EqDecision ExpenseStatus.
Proof. solve_decision. Defined.
#[global] Instance ExpenseCategory_eq_dec : EqDecision ExpenseCategory.
Proof. solve_decision. Defined.

Record User := mkUser {
  user_id : string;
  user_name : string;
  user_email : string;
  user_role : UserRole;
  department : option string;
  avatar : option string
}.

(** [interface Expense]; an optional property is an [option]. *)
Record Expense {num : Type} := mkExpense {
  expense_id : string;
  title : string;
  amount : num;
  date : string;
  category : ExpenseCategory;
  description : string;
  status : ExpenseStatus;
  receiptUrl : option string;
  submittedBy : string;
  submittedByName : string;
  submittedAt : string;
  reviewedBy : option string;
  reviewedByName : option string;
  reviewedAt : option string;
  comments : option string
}.
Arguments Expense : clear implicits.
Arguments mkExpense {num}.

(** [Partial<Expense>], the second argument of [updateExpense].  The outer
    [option] says whether the key is present in the object.  For an
    optional property a present key may hold [undefined] (inner [None]):
    spreading such an object overwrites the old value with [undefined]. *)
Record PartialExpense {num : Type} := mkPartial {
  p_id : option string;
  p_title : option string;
  p_amount : option num;
  p_date : option string;
  p_category : option ExpenseCategory;
  p_description : option string;
  p_status : option ExpenseStatus;
  p_receiptUrl : option (option string);
  p_submittedBy : option string;
  p_submittedByName : option string;
  p_submittedAt : option string;
  p_reviewedBy : option (option string);
  p_reviewedByName : option (option string);
  p_reviewedAt : option (option string);
  p_comments : option (option string)
}.
Arguments PartialExpense : clear implicits.
Arguments mkPartial {num}.

(** The argument of [createExpense]:
    [Omit<Expense, 'id' | 'submittedBy' | 'submittedByName' | 'submittedAt'>].
    TypeScript objects are structurally typed, so the object handed in may
    carry the omitted keys as well ([d_id], [d_submittedBy], ...). *)
Record ExpenseData {num : Type} := mkData {
  d_title : string;
  d_amount : num;
  d_date : string;
  d_category : ExpenseCategory;
  d_description : string;
  d_status : ExpenseStatus;
  d_receiptUrl : option string;
  d_reviewedBy : option string;
  d_reviewedByName : option string;
  d_reviewedAt : option string;
  d_comments : option string;
  d_id : option string;
  d_submittedBy : option string;
  d_submittedByName : option string;
  d_submittedAt : option string
}.
Arguments ExpenseData : clear implicits.
Arguments mkData {num}.

(** The state of the two providers: the session user of [AuthContext], the
    [localStorage] entry ['expenses'], and the React state of
    [ExpenseProvider]. *)
Record Ctx {num : Type} := mkCtx {
  user : option User;
  stored : option (list (Expense num));
  expenses : list (Expense num);
  loading : bool;
  error : option string
}.
Arguments Ctx : clear implicits.
Arguments mkCtx {num}.

(** A settled promise: the value it resolved to, or the message of the
    [Error] it threw. *)
Inductive Outcome (A : Type) :=
  | Returned (a : A)
  | Threw (message : string).
Arguments Returned {A}.
Arguments Threw {A}.

Definition returned {A} (o : Outcome A) : option A :=
  match o with Returned a => Some a | Threw _ => None end.

(** ** ExpenseContext *)

Section ExpenseContext.
Context {num : Type}.
Implicit Types (st : Ctx num) (e : Expense num) (id : string).

Definition setLoading (b : bool) st : Ctx num :=
  mkCtx (user st) (stored st) (expenses st) b (error st).
Definition setError (msg : string) st : Ctx num :=
  mkCtx (user st) (stored st) (expenses st) (loading st) (Some msg).
Definition setExpenses (l : list (Expense num)) st : Ctx num :=
  mkCtx (user st) (stored st) l (loading st) (error st).
(** [localStorage.setItem('expenses', JSON.stringify(l))].  The array is
    kept as it is given; [persisted] below is what the text gives back. *)
Definition setItem (l : list (Expense num)) st : Ctx num :=
  mkCtx (user st) (Some l) (expenses st) (loading st) (error st).
(** [storedExpenses ? JSON.parse(storedExpenses) : []] *)
Definition getItem st : list (Expense num) := default [] (stored st).

Definition loadExpenses st : Ctx num :=
  let st := setLoading true st in
  let allExpenses := getItem st in
  let allExpenses :=
    match user st with
    | Some u =>
        if bool_decide (user_role u = employee)
        then filter (fun e => submittedBy e = user_id u) allExpenses
        else allExpenses
    | None => allExpenses
    end in
  setLoading false (setExpenses allExpenses st).

Definition getExpenseById id st : option (Expense num) :=
  snd <$> list_find (fun e => expense_id e = id) (expenses st).

Definition createExpense (expenseData : ExpenseData num)
    (nowMs nowIso : string) st : Outcome (Expense num) * Ctx num :=
  let st := setLoading true st in
  match user st with
  | None =>
      (Threw "User not authenticated",
       setLoading false (setError "Failed to create expense" st))
  | Some u =>
      let newExpense :=
        {| expense_id := nowMs;
           title := d_title expenseData;
           amount := d_amount expenseData;
           date := d_date expenseData;
           category := d_category expenseData;
           description := d_description expenseData;
           status := draft;
           receiptUrl := d_receiptUrl expenseData;
           submittedBy := user_id u;
           submittedByName := user_name u;
           submittedAt := nowIso;
           reviewedBy := d_reviewedBy expenseData;
           reviewedByName := d_reviewedByName expenseData;
           reviewedAt := d_reviewedAt expenseData;
           comments := d_comments expenseData |} in
      let allExpenses := getItem st in
      let updatedExpenses := (allExpenses ++ [newExpense])%list in
      let st := setItem updatedExpenses st in
      let st := loadExpenses st in
      (Returned newExpense, setLoading false st)
  end.

(** [{ ...old, ...expenseData }] *)
Definition spread e (expenseData : PartialExpense num) : Expense num :=
  {| expense_id := default (expense_id e) (p_id expenseData);
     title := default (title e) (p_title expenseData);
     amount := default (amount e) (p_amount expenseData);
     date := default (date e) (p_date expenseData);
     category := default (category e) (p_category expenseData);
     description := default (description e) (p_description expenseData);
     status := default (status e) (p_status expenseData);
     receiptUrl := default (receiptUrl e) (p_receiptUrl expenseData);
     submittedBy := default (submittedBy e) (p_submittedBy expenseData);
     submittedByName :=
       default (submittedByName e) (p_submittedByName expenseData);
     submittedAt := default (submittedAt e) (p_submittedAt expenseData);
     reviewedBy := default (reviewedBy e) (p_reviewedBy expenseData);
     reviewedByName :=
       default (reviewedByName e) (p_reviewedByName expenseData);
     reviewedAt := default (reviewedAt e) (p_reviewedAt expenseData);
     comments := default (comments e) (p_comments expenseData) |}.

(** [findIndex] and the read [allExpenses[expenseIndex]] are one
    [list_find], which yields the first index whose record has the id
    together with that record. *)
Definition updateExpense id (expenseData : PartialExpense num) st
    : Outcome (Expense num) * Ctx num :=
  let st := setLoading true st in
  let allExpenses := getItem st in
  match list_find (fun e => expense_id e = id) allExpenses with
  | None =>
      (Threw "Expense not found",
       setLoading false (setError "Failed to update expense" st))
  | Some (expenseIndex, old) =>
      let updatedExpense := spread old expenseData in
      let allExpenses := <[expenseIndex := updatedExpense]> allExpenses in
      let st := setItem allExpenses st in
      let st := loadExpenses st in
      (Returned updatedExpense, setLoading false st)
  end.

Definition deleteExpense id st : Outcome unit * Ctx num :=
  let st := setLoading true st in
  let allExpenses := getItem st in
  let updatedExpenses := filter (fun e => expense_id e <> id) allExpenses in
  let st := setItem updatedExpenses st in
  let st := loadExpenses st in
  (Returned tt, setLoading false st).

(** [{ status: s }] *)
Definition statusOnly (s : ExpenseStatus) : PartialExpense num :=
  mkPartial None None None None None None (Some s) None
            None None None None None None None.

Definition submitExpense id st : Outcome (Expense num) * Ctx num :=
  updateExpense id (statusOnly submitted) st.

(** [{ status, reviewedBy: user.id, reviewedByName: user.name,
       reviewedAt: new Date().toISOString(), comments }] *)
Definition reviewData (s : ExpenseStatus) (u : User) (nowIso : string)
    (c : option string) : PartialExpense num :=
  mkPartial None None None None None None (Some s) None
            None None None
            (Some (Some (user_id u))) (Some (Some (user_name u)))
            (Some (Some nowIso)) (Some c).

(** [comments?: string]: the key [comments] is always present in the
    object, with value [undefined] when the argument is left out. *)
Definition approveExpense id (c : option string) (nowIso : string) st
    : Outcome (Expense num) * Ctx num :=
  match user st with
  | None => (Threw "User not authenticated", st)
  | Some u => updateExpense id (reviewData approved u nowIso c) st
  end.

Definition rejectExpense id (c : string) (nowIso : string) st
    : Outcome (Expense num) * Ctx num :=
  match user st with
  | None => (Threw "User not authenticated", st)
  | Some u => updateExpense id (reviewData rejected u nowIso (Some c)) st
  end.

(** What is in [localStorage] under an id: the record an update of this
    id would read. *)
Definition storedById id st : option (Expense num) :=
  snd <$> list_find (fun e => expense_id e = id) (getItem st).

End ExpenseContext.

(** ** AuthContext *)

Definition checkRole (roles : list UserRole) (u : option User) : bool :=
  match u with
  | None => false
  | Some u => bool_decide (user_role u ∈ roles)
  end.

(** [setUser] of the provider: [login] sets the user it found, [logout]
    sets [null]. *)
Definition setUser {num : Type} (u : option User) (st : Ctx num) : Ctx num :=
  mkCtx u (stored st) (expenses st) (loading st) (error st).

(** ** Strings: truthiness and [trim] *)

(** [!!s] for a string: every string but the empty one is truthy. *)
Definition truthy (s : string) : bool := negb (bool_decide (s = "")).

(** The white space and line terminators of ECMAScript among the code
    units below 256: TAB, LF, VT, FF, CR, SP and NBSP. *)
Definition isWhiteSpace (a : ascii) : bool :=
  bool_decide (nat_of_ascii a ∈ [9; 10; 11; 12; 13; 32; 160]).

Fixpoint trimStart (s : string) : string :=
  match s with
  | EmptyString => EmptyString
  | String a s' => if isWhiteSpace a then trimStart s' else s
  end.

Fixpoint trimEnd (s : string) : string :=
  match s with
  | EmptyString => EmptyString
  | String a s' =>
      match trimEnd s' with
      | EmptyString => if isWhiteSpace a then EmptyString else String a EmptyString
      | t => String a t
      end
  end.

Definition trim (s : string) : string := trimEnd (trimStart s).

Fixpoint allWhiteSpace (s : string) : bool :=
  match s with
  | EmptyString => true
  | String a s' => isWhiteSpace a && allWhiteSpace s'
  end.

(** ** The expense detail page *)

Inductive Toast :=
  | toast_success (msg : string)
  | toast_error (msg : string).

Section ExpenseDetail.
Context {num : Type}.
Implicit Types (st : Ctx num) (expense : option (Expense num)).

(** [const expense = id ? getExpenseById(id) : undefined], where [id] is
    the route parameter. *)
Definition pageExpense (id : option string) st : option (Expense num) :=
  match id with
  | Some i => if truthy i then getExpenseById i st else None
  | None => None
  end.

Definition canEdit st expense : bool :=
  match user st, expense with
  | Some u, Some e =>
      bool_decide (submittedBy e = user_id u)
      && (bool_decide (status e = draft) || bool_decide (status e = rejected))
  | _, _ => false
  end.

Definition canDelete st expense : bool :=
  match user st, expense with
  | Some u, Some e =>
      bool_decide (submittedBy e = user_id u) && bool_decide (status e = draft)
  | _, _ => false
  end.

Definition canReview st expense : bool :=
  match user st, expense with
  | Some u, Some e =>
      checkRole [manager; admin] (user st) && bool_decide (status e = submitted)
  | _, _ => false
  end.

Definition canSubmit st expense : bool :=
  match user st, expense with
  | Some u, Some e =>
      bool_decide (submittedBy e = user_id u) && bool_decide (status e = draft)
  | _, _ => false
  end.

(** [if (!id || !expense) return;] *)
Definition pageReady (id : option string) st : option string :=
  match id, pageExpense id st with
  | Some i, Some _ => if truthy i then Some i else None
  | _, _ => None
  end.

(** The handlers return the toast they raise, if any, and the next state.
    [confirmed] is the answer of [window.confirm]. *)
Definition handleDelete (id : option string) (confirmed : bool) st
    : option Toast * Ctx num :=
  match pageReady id st with
  | None => (None, st)
  | Some i =>
      if negb confirmed then (None, st)
      else match deleteExpense i st with
           | (Returned _, st') => (Some (toast_success "Expense deleted successfully"), st')
           | (Threw _, st') => (Some (toast_error "Failed to delete expense"), st')
           end
  end.

Definition handleSubmit (id : option string) st : option Toast * Ctx num :=
  match pageReady id st with
  | None => (None, st)
  | Some i =>
      match submitExpense i st with
      | (Returned _, st') => (Some (toast_success "Expense submitted for approval"), st')
      | (Threw _, st') => (Some (toast_error "Failed to submit expense"), st')
      end
  end.

(** [comments] is the text of the review box, [''] initially. *)
Definition handleApprove (id : option string) (comments nowIso : string) st
    : option Toast * Ctx num :=
  match pageReady id st with
  | None => (None, st)
  | Some i =>
      match approveExpense i (Some comments) nowIso st with
      | (Returned _, st') => (Some (toast_success "Expense approved"), st')
      | (Threw _, st') => (Some (toast_error "Failed to approve expense"), st')
      end
  end.

Definition handleReject (id : option string) (comments nowIso : string) st
    : option Toast * Ctx num :=
  match pageReady id st with
  | None => (None, st)
  | Some i =>
      if negb (truthy (trim comments))
      then (Some (toast_error "Please provide a reason for rejection"), st)
      else match rejectExpense i comments nowIso st with
           | (Returned _, st') => (Some (toast_success "Expense rejected"), st')
           | (Threw _, st') => (Some (toast_error "Failed to reject expense"), st')
           end
  end.

(** What the user can do on the page.  While the provider is loading the
    page is a spinner ([if (loading) return ...]) and has no control at
    all; otherwise a control is rendered only under its guard
    ([{canDelete() && <button onClick={handleDelete}>}] and the like).  A
    click on a control that is not rendered cannot happen, which is
    modelled as a step that changes nothing. *)
Inductive Click :=
  | ClickDelete (confirmed : bool)
  | ClickSubmit
  | ClickApprove (comments nowIso : string)
  | ClickReject (comments nowIso : string).

Definition click (id : option string) (c : Click) st : option Toast * Ctx num :=
  if loading st then (None, st)
  else
    let expense := pageExpense id st in
    match c with
    | ClickDelete confirmed =>
        if canDelete st expense then handleDelete id confirmed st else (None, st)
    | ClickSubmit =>
        if canSubmit st expense then handleSubmit id st else (None, st)
    | ClickApprove comments nowIso =>
        if canReview st expense then handleApprove id comments nowIso st
        else (None, st)
    | ClickReject comments nowIso =>
        if canReview st expense then handleReject id comments nowIso st
        else (None, st)
    end.

End ExpenseDetail.

(** ** The expense form *)

(** The fields of the form.  [fileSelected] holds the object URL that
    [URL.createObjectURL] gives for the chosen file, if a file is chosen. *)
Record FormState := mkForm {
  f_title : string;
  f_amount : string;
  f_date : string;
  f_category : ExpenseCategory;
  f_description : string;
  f_receiptUrl : string;
  f_fileSelected : option string
}.

Section ExpenseForm.
Context {num : Type} `{JsNumber num}.
(** The conversions [Number(s)] and [parseFloat(s)] of the language. *)
Variables (Number parseFloat : string -> num).
Implicit Types (st : Ctx num) (f : FormState).

(** The [errors] record of [validateForm], as its list of entries. *)
Definition formErrors f : list (string * string) :=
  ((if negb (truthy (trim (f_title f)))
    then [("title", "Title is required")] else [])
   ++ (if negb (truthy (f_amount f))
          || num_isNaN (Number (f_amount f))
          || num_leb (Number (f_amount f)) num_zero
       then [("amount", "Amount must be a positive number")] else [])
   ++ (if negb (truthy (f_date f))
       then [("date", "Date is required")] else [])
   ++ (if negb (truthy (trim (f_description f)))
       then [("description", "Description is required")] else []))%list.

(** [Object.keys(errors).length === 0] *)
Definition validateForm f : bool := bool_decide (length (formErrors f) = 0).

(** [{ title, amount: parseFloat(amount), date, category, description,
       receiptUrl: uploadedReceiptUrl, status: 'draft' }] *)
Definition uploadedReceiptUrl f : string :=
  default (f_receiptUrl f) (f_fileSelected f).

Definition formData f : ExpenseData num :=
  {| d_title := f_title f;
     d_amount := parseFloat (f_amount f);
     d_date := f_date f;
     d_category := f_category f;
     d_description := f_description f;
     d_status := draft;
     d_receiptUrl := Some (uploadedReceiptUrl f);
     d_reviewedBy := None; d_reviewedByName := None;
     d_reviewedAt := None; d_comments := None;
     d_id := None; d_submittedBy := None;
     d_submittedByName := None; d_submittedAt := None |}.

(** The same object, read as the [Partial<Expense>] of [updateExpense]:
    seven keys are present. *)
Definition formPartial f : PartialExpense num :=
  {| p_id := None;
     p_title := Some (f_title f);
     p_amount := Some (parseFloat (f_amount f));
     p_date := Some (f_date f);
     p_category := Some (f_category f);
     p_description := Some (f_description f);
     p_status := Some draft;
     p_receiptUrl := Some (Some (uploadedReceiptUrl f));
     p_submittedBy := None; p_submittedByName := None;
     p_submittedAt := None;
     p_reviewedBy := None; p_reviewedByName := None;
     p_reviewedAt := None; p_comments := None |}.

(** The second half of [handleSubmit]: submit what was saved unless it is
    kept as a draft. *)
Definition submitSaved (submitAsDraft : bool) (saved : Expense num)
    (toasts : list Toast) st : list Toast * Ctx num :=
  if submitAsDraft then (toasts, st)
  else match submitExpense (expense_id saved) st with
       | (Returned _, st') =>
           ((toasts ++ [toast_success "Expense submitted for approval"])%list, st')
       | (Threw _, st') =>
           ((toasts ++ [toast_error "Failed to save expense. Please try again."])%list, st')
       end.

(** [handleSubmit(e, submitAsDraft)] of the form; [id] is the route
    parameter (absent on the page of a new expense).  The result is the
    sequence of toasts and the next state. *)
Definition formSubmit f (id : option string) (submitAsDraft : bool)
    (nowMs nowIso : string) st : list Toast * Ctx num :=
  if negb (validateForm f) then ([], st)
  else
    match id with
    | Some i =>
        if truthy i then
          match getExpenseById i st with
          | None => ([toast_error "Cannot update: Expense no longer exists"], st)
          | Some _ =>
              match updateExpense i (formPartial f) st with
              | (Returned saved, st') =>
                  submitSaved submitAsDraft saved
                    [toast_success "Expense updated successfully"] st'
              | (Threw _, st') =>
                  ([toast_error "Failed to save expense. Please try again."], st')
              end
          end
        else
          match createExpense (formData f) nowMs nowIso st with
          | (Returned saved, st') =>
              submitSaved submitAsDraft saved
                [toast_success "Expense created successfully"] st'
          | (Threw _, st') =>
              ([toast_error "Failed to save expense. Please try again."], st')
          end
    | None =>
        match createExpense (formData f) nowMs nowIso st with
        | (Returned saved, st') =>
            submitSaved submitAsDraft saved
              [toast_success "Expense created successfully"] st'
        | (Threw _, st') =>
            ([toast_error "Failed to save expense. Please try again."], st')
        end
    end.

End ExpenseForm.

(** ** The report page *)

(** A JavaScript object used as a record from keys to values: its entries
    in insertion order.  Writing an existing key keeps its place, writing
    a new key appends it. *)
Section JsObject.
Context {K V : Type} `{EqDecision K}.



End JsObject.

Definition categoryName (c : ExpenseCategory) : string :=
  match c with
  | travel => "travel" | meals => "meals" | accommodation => "accommodation"
  | equipment => "equipment" | office => "office" | other => "other"
  end.

Definition statusName (s : ExpenseStatus) : string :=
  match s with
  | draft => "draft" | submitted => "submitted"
  | approved => "approved" | rejected => "rejected"
  end.

Record ReportFilters := mkFilters {
  startDate : string;
  endDate : string;
  filterCategory : string;
  filterStatus : string
}.

Section ReportPage.
Context {num : Type} `{JsNumber num}.
(** [new Date(s).getTime()], [None] for an invalid date (every comparison
    with it is false), and the effect of [d.setDate(d.getDate() + 1)] on
    the time value. *)
Variables (dateOf : string -> option Z) (nextDay : Z -> Z).
Implicit Types (l : list (Expense num)).

Definition dateGe (a b : option Z) : bool :=
  match a, b with Some x, Some y => (y <=? x)%Z | _, _ => false end.
Definition dateLt (a b : option Z) : bool :=
  match a, b with Some x, Some y => (x <? y)%Z | _, _ => false end.

(** The effect that computes [filteredExpenses]. *)
Definition applyFilters (filters : ReportFilters) l : list (Expense num) :=
  let result := l in
  let result :=
    if truthy (startDate filters)
    then filter (fun e => dateGe (dateOf (date e)) (dateOf (startDate filters)) = true) result
    else result in
  let result :=
    if truthy (endDate filters)
    then filter (fun e => dateLt (dateOf (date e)) (nextDay <$> dateOf (endDate filters)) = true) result
    else result in
  let result :=
    if negb (bool_decide (filterCategory filters = "all"))
    then filter (fun e => categoryName (category e) = filterCategory filters) result
    else result in
  let result :=
    if negb (bool_decide (filterStatus filters = "all"))
    then filter (fun e => statusName (status e) = filterStatus filters) result
    else result in
  result.






End ReportPage.

(** ** What [localStorage] holds *)

(** [JSON.parse(JSON.stringify(x))] for a number.  [JSON.stringify] writes
    [NaN] and the two infinities as [null] ([None] here) and [-0] as [0];
    every other number comes back as it was. *)
Class JsonNumber (num : Type) := {
  num_json : num -> option num
}.

#[global] Instance float_JsonNumber : JsonNumber float := {
  num_json := fun x =>
    if PrimFloat.is_finite x
    then Some (if PrimFloat.is_zero x then 0%float else x)
    else None
}.

#[global] Instance Z_JsonNumber : JsonNumber Z := {
  num_json := Some
}.

(** A record as it comes back from the text that [setItem] wrote: its
    amount is a number or [null]; the strings come back as they were, and
    an optional property that is [undefined] is left out of the text and
    is [undefined] again. *)
Definition jsonRecord {num : Type} `{JsonNumber num} (e : Expense num)
    : Expense (option num) :=
  mkExpense (expense_id e) (title e) (num_json (amount e)) (date e)
    (category e) (description e) (status e) (receiptUrl e)
    (submittedBy e) (submittedByName e) (submittedAt e)
    (reviewedBy e) (reviewedByName e) (reviewedAt e) (comments e).

(** The array that [JSON.parse] gives for the text written for the array
    [l]. *)
Definition persisted {num : Type} `{JsonNumber num} (l : list (Expense num))
    : list (Expense (option num)) :=
  map jsonRecord l.

(** The record [e] read from a text in which its amount is the number
    [amount e]. *)
Definition asWritten {num : Type} (e : Expense num) : Expense (option num) :=
  mkExpense (expense_id e) (title e) (Some (amount e)) (date e)
    (category e) (description e) (status e) (receiptUrl e)
    (submittedBy e) (submittedByName e) (submittedAt e)
    (reviewedBy e) (reviewedByName e) (reviewedAt e) (comments e).

(** [record.amount > 0] for a record of the text; [null > 0] is false. *)
Definition storedPositive {num : Type} `{JsNumber num}
    (r : Expense (option num)) : Prop :=
  match amount r with
  | Some a => num_ltb num_zero a
  | None => false
  end = true.

(** ** The initial data of the two providers *)

Definition john : User :=
  mkUser "1" "John Employee" "employee@example.com" employee
         (Some "Marketing") (Some "https://randomuser.me/api/portraits/men/32.jpg").
Definition sarah : User :=
  mkUser "2" "Sarah Manager" "manager@example.com" manager
         (Some "Finance") (Some "https://randomuser.me/api/portraits/women/44.jpg").
Definition david : User :=
  mkUser "3" "David Admin" "admin@example.com" admin
         (Some "Operations") (Some "https://randomuser.me/api/portraits/men/46.jpg").
Definition emily : User :=
  mkUser "4" "Emily Johnson" "emily@example.com" employee
         (Some "Sales") (Some "https://randomuser.me/api/portraits/women/33.jpg").

Definition businessTrip : Expense float :=
  mkExpense "1" "Business Trip to New York" 1250.75%float "2023-10-15" travel
    "Flight and taxi expenses for the quarterly meeting" approved
    (Some "https://example.com/receipt1.pdf")
    "1" "John Employee" "2023-10-16T10:30:00Z"
    (Some "2") (Some "Sarah Manager") (Some "2023-10-17T14:20:00Z") None.

Definition teamLunch : Expense float :=
  mkExpense "2" "Team Lunch" 187.50%float "2023-10-20" meals
    "Team lunch after project completion" submitted None
    "1" "John Employee" "2023-10-21T09:15:00Z" None None None None.

Definition newLaptop : Expense float :=
  mkExpense "3" "New Laptop" 1899.99%float "2023-10-22" equipment
    "Replacement laptop for development team" rejected
    (Some "https://example.com/receipt3.pdf")
    "1" "John Employee" "2023-10-23T11:45:00Z"
    (Some "2") (Some "Sarah Manager") (Some "2023-10-24T16:30:00Z")
    (Some "Please use the standard equipment request process instead").


Definition INITIAL_EXPENSES : list (Expense float) :=
  [businessTrip; teamLunch; newLaptop].

(** The values of [Number] and of [parseFloat] at the numerals typed in
    the examples below; every other string is taken for not a number. *)
Definition numeral (s : string) : float :=
  if bool_decide (s = "1899.99") then 1899.99%float
  else if bool_decide (s = "2100") then 2100%float
  else PrimFloat.nan.

(** The provider once [INITIAL_EXPENSES] is in [localStorage] and the
    given user is logged in. *)
Definition session (u : User) : Ctx float :=
  loadExpenses (mkCtx (Some u) (Some INITIAL_EXPENSES) [] true None).


(** ** AuthContext: the accounts and the session *)

(** An account as [localStorage] keeps it under ['users']: a user with the
    password. *)
Record StoredUser := mkStoredUser {
  su_id : string;
  su_name : string;
  su_email : string;
  su_password : string;
  su_role : UserRole;
  su_department : option string;
  su_avatar : option string
}.

(** [const { password: _, ...userWithoutPassword } = foundUser] *)
Definition userWithoutPassword (s : StoredUser) : User :=
  mkUser (su_id s) (su_name s) (su_email s) (su_role s)
         (su_department s) (su_avatar s).

(** The argument of [addUser]: [Omit<User, 'id'> & { password: string }]. *)
Record UserData := mkUserData {
  ud_name : string;
  ud_email : string;
  ud_password : string;
  ud_role : UserRole;
  ud_department : option string;
  ud_avatar : option string
}.

(** The state of [AuthProvider]: the React state [user] and [loading], and
    the [localStorage] entries ['users'] and ['user']. *)
Record Auth := mkAuth {
  auth_user : option User;
  storedUsers : option (list StoredUser);
  storedUser : option User;
  auth_loading : bool
}.

Definition account (u : User) (password : string) : StoredUser :=
  mkStoredUser (user_id u) (user_name u) (user_email u) password
               (user_role u) (department u) (avatar u).

Definition michael : User :=
  mkUser "5" "Michael Chen" "michael@example.com" manager
         (Some "Engineering") (Some "https://randomuser.me/api/portraits/men/45.jpg").

Section AuthContext.
(** [encodeURIComponent] of the language. *)
Variable encodeURIComponent : string -> string.
Implicit Types (a : Auth).

Definition getAllUsers a : list StoredUser := default [] (storedUsers a).

Definition addUser (userData : UserData) (nowMs : string) a
    : Outcome unit * Auth :=
  let users := getAllUsers a in
  if existsb (fun u => bool_decide (su_email u = ud_email userData)) users
  then (Threw "Email already exists", a)
  else
    let newUser :=
      {| su_id := nowMs;
         su_name := ud_name userData;
         su_email := ud_email userData;
         su_password := ud_password userData;
         su_role := ud_role userData;
         su_department := ud_department userData;
         su_avatar :=
           Some (String.append "https://ui-avatars.com/api/?name="
                   (String.append (encodeURIComponent (ud_name userData))
                                  "&background=random")) |} in
    let updatedUsers := users ++ [newUser] in
    (Returned tt,
     mkAuth (auth_user a) (Some updatedUsers) (storedUser a) (auth_loading a)).

Definition login (email password : string) a : Outcome unit * Auth :=
  let users := getAllUsers a in
  match list_find (fun u => su_email u = email /\ su_password u = password) users with
  | None =>
      (Threw "Invalid credentials",
       mkAuth (auth_user a) (storedUsers a) (storedUser a) false)
  | Some (_, foundUser) =>
      let u := userWithoutPassword foundUser in
      (Returned tt, mkAuth (Some u) (storedUsers a) (Some u) false)
  end.

Definition logout a : Auth :=
  mkAuth None (storedUsers a) None (auth_loading a).

End AuthContext.

Definition INITIAL_MOCK_USERS : list StoredUser :=
  [ account john "password123"; account sarah "password123";
    account david "password123"; account emily "password123";
    account michael "password123" ].

(** The effect that runs when the provider mounts: seed the accounts if
    there are none, and take up the saved session. *)
Definition authInit (a : Auth) : Auth :=
  let users :=
    match storedUsers a with
    | None => Some INITIAL_MOCK_USERS
    | Some l => Some l
    end in
  let u :=
    match storedUser a with
    | Some saved => Some saved
    | None => auth_user a
    end in
  mkAuth u users (storedUser a) false.

(** A reload of the page: the React state starts afresh, [localStorage]
    stays, and the effect runs. *)
Definition reload (a : Auth) : Auth :=
  authInit (mkAuth None (storedUsers a) (storedUser a) true).

(** ** ExpenseProvider: the effect on mount *)

(** [if (!storedExpenses) localStorage.setItem('expenses', ...)], then
    [loadExpenses()]. *)
Definition initExpenses (st : Ctx float) : Ctx float :=
  loadExpenses
    match stored st with
    | None => setItem INITIAL_EXPENSES st
    | Some _ => st
    end.

(** ** The expense form: the effect that fills it *)

Section FormLoad.
Context {num : Type}.
(** [n.toString()] of the language. *)
Variable toString : num -> string.


(** [handleRemoveFile] *)
Definition handleRemoveFile (f : FormState) : FormState :=
  mkForm (f_title f) (f_amount f) (f_date f) (f_category f)
         (f_description f) "" None.

End FormLoad.

(** ** The report page: selectors; the dashboard: counters *)

(** [[...new Set(xs)]]: the values of [xs], each once, in the order of
    their first occurrence. *)
Definition setOf {A : Type} `{EqDecision A} (xs : list A) : list A :=
  fold_left (fun acc x => if decide (x ∈ acc) then acc else acc ++ [x]) xs [].

Section Selectors.
Context {num : Type} `{JsNumber num}.
Implicit Types (l : list (Expense num)).


Definition statuses l : list string :=
  "all" :: map statusName (setOf (map status l)).

Definition resetFilters : ReportFilters := mkFilters "" "" "all" "all".

Definition pendingExpenses l : nat :=
  length (filter (fun e => status e = submitted) l).
Definition approvedExpenses l : nat :=
  length (filter (fun e => status e = approved) l).
Definition rejectedExpenses l : nat :=
  length (filter (fun e => status e = rejected) l).


End Selectors.

(** ** What a submitter hands in *)

(** The part of an expense that its submitter wrote and signed: the id,
    the content and the submitter fields. *)
Definition submission {num : Type} (e : Expense num) :=
  (expense_id e, title e, amount e, date e, category e, description e,
   receiptUrl e, submittedBy e, submittedByName e, submittedAt e).



(** * Properties *)

#[global] Instance Z_ExactNumber : ExactNumber Z.
Proof.
  split; simpl; intros.
  - apply Z.add_assoc.
  - apply Z.add_comm.
  - reflexivity.
  - apply negb_false_iff in H. by apply Z.eqb_eq.
Qed.

(** The three initial expenses are John's: he, the manager and the admin
    see them all, another employee sees none. *)
Example initial_sessions :
  map expense_id (expenses (session john)) = ["1"; "2"; "3"]
  /\ map expense_id (expenses (session emily)) = []
  /\ map expense_id (expenses (session sarah)) = ["1"; "2"; "3"]
  /\ map expense_id (expenses (session david)) = ["1"; "2"; "3"].
Proof. vm_compute. auto. Qed.

(** ** The steps of the provider *)

Section ContextFacts.
Context {num : Type}.
Implicit Types (st : Ctx num) (e old : Expense num) (id : string)
  (d : PartialExpense num) (l : list (Expense num)).

Lemma user_loadExpenses st : user (loadExpenses st) = user st.
Proof. reflexivity. Qed.

Lemma getItem_loadExpenses st : getItem (loadExpenses st) = getItem st.
Proof. reflexivity. Qed.

Lemma error_loadExpenses st : error (loadExpenses st) = error st.
Proof. reflexivity. Qed.

Lemma getItem_setItem l st : getItem (setItem l st) = l.
Proof. reflexivity. Qed.

(** What [updateExpense] does when the id is in the store: the first
    record with this id is replaced by its spread with the data. *)
Lemma updateExpense_found id d st i old :
  list_find (fun e => expense_id e = id) (getItem st) = Some (i, old) ->
  updateExpense id d st =
    (Returned (spread old d),
     setLoading false
       (loadExpenses (setItem (<[i := spread old d]> (getItem st))
                              (setLoading true st)))).
Proof.
  intros Hfind. unfold updateExpense.
  change (getItem (setLoading true st)) with (getItem st).
  by rewrite Hfind.
Qed.

Lemma updateExpense_missing id d st :
  list_find (fun e => expense_id e = id) (getItem st) = None ->
  updateExpense id d st =
    (Threw "Expense not found",
     setLoading false (setError "Failed to update expense" (setLoading true st))).
Proof.
  intros Hfind. unfold updateExpense.
  change (getItem (setLoading true st)) with (getItem st).
  by rewrite Hfind.
Qed.

(** [updateExpense] throws exactly when the id is not in the store, and
    then the store is as before. *)
Lemma updateExpense_throws id d st msg st' :
  updateExpense id d st = (Threw msg, st') ->
  storedById id st = None /\ msg = "Expense not found"
  /\ stored st' = stored st.
Proof.
  unfold storedById.
  destruct (list_find (fun e => expense_id e = id) (getItem st))
    as [[i old]|] eqn:Hfind.
  - rewrite (updateExpense_found _ _ _ _ _ Hfind). discriminate.
  - rewrite (updateExpense_missing _ _ _ Hfind). intros [= <- <-]. done.
Qed.

Lemma storedById_Some id st e :
  storedById id st = Some e <->
  exists i, list_find (fun e => expense_id e = id) (getItem st) = Some (i, e).
Proof.
  unfold storedById.
  destruct (list_find _ _) as [[i old]|]; simpl; split.
  - intros [= ->]. by exists i.
  - by intros [j [= _ ->]].
  - discriminate.
  - by intros [j ?].
Qed.

(** After an update the store holds the new record under the id, at the
    place of the old one, unless the data renamed it. *)
Lemma list_find_update id d st i old :
  list_find (fun e => expense_id e = id) (getItem st) = Some (i, old) ->
  p_id d = None ->
  list_find (fun e => expense_id e = id) (getItem (snd (updateExpense id d st)))
  = Some (i, spread old d).
Proof.
  intros Hfind Hid. rewrite (updateExpense_found _ _ _ _ _ Hfind). simpl.
  change (getItem _) with (<[i := spread old d]> (getItem st)).
  apply list_find_Some in Hfind as (Hi & Hold & Hleast).
  apply list_find_Some. split_and!.
  - apply list_lookup_insert_eq. by eapply lookup_lt_Some.
  - simpl. by rewrite Hid.
  - intros j y Hj Hlt. rewrite list_lookup_insert_ne in Hj by lia.
    by eapply Hleast.
Qed.

Lemma storedById_update id d st i old :
  list_find (fun e => expense_id e = id) (getItem st) = Some (i, old) ->
  p_id d = None ->
  storedById id (snd (updateExpense id d st)) = Some (spread old d).
Proof.
  intros Hfind Hid. unfold storedById.
  by rewrite (list_find_update _ _ _ _ _ Hfind Hid).
Qed.

End ContextFacts.

(** ** Review: approve and reject *)

Section Review.
Context {num : Type}.
Implicit Types (st : Ctx num) (e old : Expense num) (id : string).

Lemma status_reviewed old (s : ExpenseStatus) u nowIso c :
  status (spread old (reviewData (num := num) s u nowIso c)) = s.
Proof. reflexivity. Qed.

Lemma canReview_true st e :
  canReview st (Some e) = true ->
  status e = submitted /\
  exists u, user st = Some u /\ (user_role u = manager \/ user_role u = admin).
Proof.
  unfold canReview, checkRole. destruct (user st) as [u|]; [|done].
  intros [Hrole Hst]%andb_prop.
  apply bool_decide_eq_true in Hrole, Hst. split; [done|].
  exists u. split; [done|].
  apply elem_of_cons in Hrole as [?|Hrole]; [by left|].
  apply elem_of_cons in Hrole as [?|Hrole]; [by right|].
  by apply elem_of_nil in Hrole.
Qed.

Lemma canReview_other_status st e :
  status e <> submitted -> canReview st (Some e) = false.
Proof.
  intros Hst. destruct (canReview st (Some e)) eqn:Hc; [|done].
  by apply canReview_true in Hc as [? _].
Qed.

(** The only errors of a review: nobody is logged in, or the id is not in
    the store.  The status of the expense is never a reason. *)
Lemma approveExpense_throws st id c nowIso msg st' :
  approveExpense id c nowIso st = (Threw msg, st') ->
  (user st = None /\ msg = "User not authenticated" /\ st' = st)
  \/ (storedById id st = None /\ msg = "Expense not found").
Proof.
  unfold approveExpense. destruct (user st) as [u|].
  - intros Hthrow%updateExpense_throws. right. tauto.
  - intros [= <- <-]. by left.
Qed.

Lemma rejectExpense_throws st id c nowIso msg st' :
  rejectExpense id c nowIso st = (Threw msg, st') ->
  (user st = None /\ msg = "User not authenticated" /\ st' = st)
  \/ (storedById id st = None /\ msg = "Expense not found").
Proof.
  unfold rejectExpense. destruct (user st) as [u|].
  - intros Hthrow%updateExpense_throws. right. tauto.
  - intros [= <- <-]. by left.
Qed.

(** C1 (as amended).  [approveExpense] and [rejectExpense] do not look at
    the current status: for a logged-in user and an id that is in the
    store they return the record with status [approved], respectively
    [rejected], and store it, whatever the status was.  The restriction to
    [submitted] is the guard [canReview] of the detail page: on an expense
    in any other status the review controls are not there, and a click on
    approve or reject changes nothing. *)
Theorem review_not_gated_by_status st u id (c : option string)
    (c' nowIso : string) i old :
  user st = Some u ->
  list_find (fun e => expense_id e = id) (getItem st) = Some (i, old) ->
  (let e' := spread old (reviewData approved u nowIso c) in
   fst (approveExpense id c nowIso st) = Returned e'
   /\ status e' = approved
   /\ storedById id (snd (approveExpense id c nowIso st)) = Some e')
  /\ (let e' := spread old (reviewData rejected u nowIso (Some c')) in
      fst (rejectExpense id c' nowIso st) = Returned e'
      /\ status e' = rejected
      /\ storedById id (snd (rejectExpense id c' nowIso st)) = Some e')
  /\ (forall pid e comments now,
        pageExpense pid st = Some e -> status e <> submitted ->
        click pid (ClickApprove comments now) st = (None, st)
        /\ click pid (ClickReject comments now) st = (None, st)).
Proof.
  intros Hu Hfind.
  assert (Hupd : forall s c0,
    let e' := spread old (reviewData s u nowIso c0) in
    fst (updateExpense id (reviewData s u nowIso c0) st) = Returned e'
    /\ status e' = s
    /\ storedById id (snd (updateExpense id (reviewData s u nowIso c0) st))
       = Some e').
  { intros s c0 e'. split_and!.
    - by rewrite (updateExpense_found _ _ _ _ _ Hfind).
    - done.
    - by apply (storedById_update _ _ _ i). }
  split; [|split].
  - unfold approveExpense. rewrite Hu. apply Hupd.
  - unfold rejectExpense. rewrite Hu. apply Hupd.
  - intros pid e comments now He Hst. unfold click.
    destruct (loading st); [done|]. rewrite He.
    by rewrite (canReview_other_status _ _ Hst).
Qed.

End Review.

(** C1, as stated, fails: Sarah (a manager) approves the rejected laptop
    expense and rejects the approved business trip.  Both calls return,
    and the stored status changes. *)
Lemma approve_and_reject_outside_submitted :
  let now := "2023-11-02T09:00:00Z" in
  status <$> storedById "3" (session sarah) = Some rejected
  /\ status <$> returned (fst (approveExpense "3" None now (session sarah)))
     = Some approved
  /\ status <$> storedById "3" (snd (approveExpense "3" None now (session sarah)))
     = Some approved
  /\ status <$> storedById "1" (session sarah) = Some approved
  /\ status <$> returned (fst (rejectExpense "1" "No receipt" now (session sarah)))
     = Some rejected
  /\ status <$> storedById "1" (snd (rejectExpense "1" "No receipt" now (session sarah)))
     = Some rejected.
Proof. vm_compute. repeat split. Qed.

Lemma review_not_gated_by_status_witness :
  user (session sarah) = Some sarah
  /\ list_find (fun e => expense_id e = "3") (getItem (session sarah))
     = Some (2, newLaptop)
  /\ status <$> returned (fst (approveExpense "3" None "2023-11-02T09:00:00Z"
                                 (session sarah))) = Some approved.
Proof.
  assert (Hu : user (session sarah) = Some sarah) by reflexivity.
  assert (Hf : list_find (fun e => expense_id e = "3") (getItem (session sarah))
               = Some (2, newLaptop)) by (vm_compute; reflexivity).
  split; [exact Hu|]. split; [exact Hf|].
  destruct (review_not_gated_by_status (session sarah) sarah "3" None
              "No receipt" "2023-11-02T09:00:00Z" 2 newLaptop Hu Hf)
    as [[-> _] _].
  reflexivity.
Defined.

(** ** Who may act *)

Section Actors.
Context {num : Type}.
Implicit Types (st : Ctx num) (e old : Expense num) (id : string)
  (d : PartialExpense num) (who : option User).

(** The session user is read by [updateExpense] and [deleteExpense] only
    to compute the visible list: the outcome and the store do not depend
    on it. *)
Lemma updateExpense_any_user id d who st :
  fst (updateExpense id d (setUser who st)) = fst (updateExpense id d st)
  /\ stored (snd (updateExpense id d (setUser who st)))
     = stored (snd (updateExpense id d st)).
Proof.
  unfold updateExpense.
  change (getItem (setLoading true (setUser who st))) with (getItem st).
  change (getItem (setLoading true st)) with (getItem st).
  by destruct (list_find _ (getItem st)) as [[i old]|].
Qed.

Lemma deleteExpense_any_user id who st :
  fst (deleteExpense id (setUser who st)) = fst (deleteExpense id st)
  /\ stored (snd (deleteExpense id (setUser who st)))
     = stored (snd (deleteExpense id st)).
Proof. done. Qed.

Lemma owner_guards st e :
  canEdit st (Some e) = true \/ canDelete st (Some e) = true
  \/ canSubmit st (Some e) = true ->
  exists u, user st = Some u /\ submittedBy e = user_id u.
Proof.
  unfold canEdit, canDelete, canSubmit.
  destruct (user st) as [u|]; [|by intros [|[|]]].
  intros H. exists u. split; [done|].
  destruct H as [H|[H|H]]; apply andb_prop in H as [H _];
    by apply bool_decide_eq_true in H.
Qed.

Lemma owner_guards_false st e u :
  user st = Some u -> submittedBy e <> user_id u ->
  canEdit st (Some e) = false /\ canDelete st (Some e) = false
  /\ canSubmit st (Some e) = false.
Proof.
  intros Hu Hne. unfold canEdit, canDelete, canSubmit. rewrite Hu.
  by rewrite (bool_decide_eq_false_2 _ Hne).
Qed.

Lemma canReview_employee st expense u :
  user st = Some u -> user_role u = employee -> canReview st expense = false.
Proof.
  intros Hu Hr. unfold canReview, checkRole. rewrite Hu.
  destruct expense as [e|]; [|done]. by rewrite Hr.
Qed.

(** C2 (as amended).  The operations of the provider check no actor:
    [updateExpense] (hence [submitExpense] and every edit) and
    [deleteExpense] act alike whoever is logged in, even nobody, and
    [approveExpense] and [rejectExpense] succeed for every logged-in user
    whatever the role.  Who may act is decided by the guards of the detail
    page: [canEdit], [canDelete] and [canSubmit] hold for the owner only,
    [canReview] for a manager or an admin only; under a false guard the
    control is not rendered, so a click of somebody else's on delete or
    submit, and a click of an employee on approve or reject, change
    nothing. *)
Theorem actors_checked_by_page_guards_only st id d :
  (forall who,
     fst (updateExpense id d (setUser who st)) = fst (updateExpense id d st)
     /\ stored (snd (updateExpense id d (setUser who st)))
        = stored (snd (updateExpense id d st)))
  /\ (forall who,
        fst (submitExpense id (setUser who st)) = fst (submitExpense id st)
        /\ stored (snd (submitExpense id (setUser who st)))
           = stored (snd (submitExpense id st)))
  /\ (forall who,
        fst (deleteExpense id (setUser who st)) = fst (deleteExpense id st)
        /\ stored (snd (deleteExpense id (setUser who st)))
           = stored (snd (deleteExpense id st)))
  /\ (forall u i old c c' nowIso,
        user st = Some u ->
        list_find (fun e => expense_id e = id) (getItem st) = Some (i, old) ->
        fst (approveExpense id c nowIso st)
          = Returned (spread old (reviewData approved u nowIso c))
        /\ fst (rejectExpense id c' nowIso st)
          = Returned (spread old (reviewData rejected u nowIso (Some c'))))
  /\ (forall e,
        canEdit st (Some e) = true \/ canDelete st (Some e) = true
        \/ canSubmit st (Some e) = true ->
        exists u, user st = Some u /\ submittedBy e = user_id u)
  /\ (forall e,
        canReview st (Some e) = true ->
        exists u, user st = Some u
                  /\ (user_role u = manager \/ user_role u = admin))
  /\ (forall pid e u confirmed,
        pageExpense pid st = Some e -> user st = Some u ->
        submittedBy e <> user_id u ->
        click pid (ClickDelete confirmed) st = (None, st)
        /\ click pid ClickSubmit st = (None, st))
  /\ (forall pid u comments nowIso,
        user st = Some u -> user_role u = employee ->
        click pid (ClickApprove comments nowIso) st = (None, st)
        /\ click pid (ClickReject comments nowIso) st = (None, st)).
Proof.
  split_and!.
  - intros who. apply updateExpense_any_user.
  - intros who. apply updateExpense_any_user.
  - intros who. apply deleteExpense_any_user.
  - intros u i old c c' nowIso Hu Hfind.
    unfold approveExpense, rejectExpense. rewrite Hu.
    by rewrite !(updateExpense_found _ _ _ _ _ Hfind).
  - apply owner_guards.
  - intros e He. by apply canReview_true in He as [_ ?].
  - intros pid e u confirmed He Hu Hne. unfold click.
    destruct (loading st); [done|]. rewrite He.
    destruct (owner_guards_false _ _ _ Hu Hne) as (_ & -> & ->). done.
  - intros pid u comments nowIso Hu Hr. unfold click.
    destruct (loading st); [done|].
    by rewrite (canReview_employee _ _ _ Hu Hr).
Qed.

End Actors.

(** C2, as stated, fails.  John, an employee, approves his own submitted
    lunch: the call returns and the store holds the expense as approved,
    reviewed by himself.  Emily, another employee, to whom John's expenses
    are not even visible, rewrites the title of his rejected laptop
    expense and deletes his lunch. *)
Lemma employee_approves_and_stranger_edits :
  user_role john = employee /\ user_role emily = employee
  /\ submittedBy teamLunch = user_id john
  /\ submittedBy newLaptop <> user_id emily
  /\ (let r := approveExpense "2" None "2023-11-02T09:00:00Z" (session john) in
      status <$> returned (fst r) = Some approved
      /\ (fun e => (status e, reviewedBy e)) <$> storedById "2" (snd r)
         = Some (approved, Some "1"))
  /\ (let r := updateExpense "3"
                 (mkPartial None (Some "Mine now") None None None None None None
                            None None None None None None None)
                 (session emily) in
      getExpenseById "3" (session emily) = None
      /\ title <$> returned (fst r) = Some "Mine now"
      /\ title <$> storedById "3" (snd r) = Some "Mine now")
  /\ (let r := deleteExpense "2" (session emily) in
      fst r = Returned tt
      /\ storedById "2" (session emily) = Some teamLunch
      /\ storedById "2" (snd r) = None).
Proof. vm_compute. repeat split. discriminate. Qed.

(** The guards at work: Sarah, who does not own the lunch, finds no
    delete and no submit control on its page, and John, an employee, no
    review controls. *)
Lemma actors_checked_by_page_guards_only_witness :
  (click (Some "2") (ClickDelete true) (session sarah) = (None, session sarah)
   /\ click (Some "2") ClickSubmit (session sarah) = (None, session sarah))
  /\ (click (Some "2") (ClickApprove "" "2023-11-02T09:00:00Z") (session john)
      = (None, session john)
      /\ click (Some "2") (ClickReject "" "2023-11-02T09:00:00Z") (session john)
         = (None, session john)).
Proof.
  destruct (actors_checked_by_page_guards_only (session sarah) "2"
              (statusOnly submitted)) as (_ & _ & _ & _ & _ & _ & Howner & _).
  destruct (actors_checked_by_page_guards_only (session john) "2"
              (statusOnly submitted)) as (_ & _ & _ & _ & _ & _ & _ & Hrole).
  split.
  - apply (Howner (Some "2") teamLunch sarah true);
      [vm_compute; reflexivity | reflexivity | discriminate].
  - apply (Hrole (Some "2") john); reflexivity.
Defined.

(** ** Rejection comments *)

Lemma allWhiteSpace_trimStart s : allWhiteSpace (trimStart s) = allWhiteSpace s.
Proof.
  induction s as [|a s IH]; simpl; [done|].
  destruct (isWhiteSpace a) eqn:Ha; simpl; [done|]. by rewrite Ha.
Qed.

Lemma trimEnd_empty s : trimEnd s = "" <-> allWhiteSpace s = true.
Proof.
  induction s as [|a s IH]; simpl; [done|].
  destruct (trimEnd s) as [|b t] eqn:Ht.
  - assert (allWhiteSpace s = true) as -> by by apply IH.
    rewrite andb_true_r. by destruct (isWhiteSpace a).
  - assert (allWhiteSpace s = false) as ->.
    { destruct (allWhiteSpace s); [|done]. by destruct IH as [_ ?%(fun f => f eq_refl)]. }
    rewrite andb_false_r. done.
Qed.

(** [!s.trim()] holds exactly for the strings made of white space only,
    the empty one among them. *)
Lemma trim_falsy s : negb (truthy (trim s)) = allWhiteSpace s.
Proof.
  unfold truthy, trim. rewrite negb_involutive.
  rewrite <- (allWhiteSpace_trimStart s).
  destruct (allWhiteSpace (trimStart s)) eqn:Hws.
  - apply bool_decide_eq_true. by apply trimEnd_empty.
  - apply bool_decide_eq_false. intros Ht%trimEnd_empty. congruence.
Qed.

Section Reject.
Context {num : Type}.
Implicit Types (st : Ctx num) (e old : Expense num) (id : string).

Lemma pageReady_visible id st e :
  truthy id = true -> getExpenseById id st = Some e ->
  pageReady (Some id) st = Some id.
Proof.
  intros Hid Hg. unfold pageReady, pageExpense. by rewrite Hid, Hg.
Qed.

(** C3 (as amended).  [rejectExpense] does not look at the comments: for a
    logged-in user and an id in the store it succeeds with any string, the
    empty one included, sets the status to [rejected] and stamps
    [reviewedBy], [reviewedByName], [reviewedAt] and [comments].  The
    comment is required by [handleReject] of the detail page: with
    comments that are empty or white space only it raises the toast
    'Please provide a reason for rejection' at most and leaves the state
    as it is; with any other comments, on a visible expense, it calls
    [rejectExpense] and reports success. *)
Theorem reject_comments_checked_by_handler st u id (c nowIso : string) i old :
  user st = Some u ->
  list_find (fun e => expense_id e = id) (getItem st) = Some (i, old) ->
  (let e' := spread old (reviewData rejected u nowIso (Some c)) in
   fst (rejectExpense id c nowIso st) = Returned e'
   /\ storedById id (snd (rejectExpense id c nowIso st)) = Some e'
   /\ status e' = rejected
   /\ reviewedBy e' = Some (user_id u)
   /\ reviewedByName e' = Some (user_name u)
   /\ reviewedAt e' = Some nowIso
   /\ comments e' = Some c)
  /\ (forall pid blank,
        allWhiteSpace blank = true ->
        snd (handleReject pid blank nowIso st) = st
        /\ (fst (handleReject pid blank nowIso st) = None
            \/ fst (handleReject pid blank nowIso st)
               = Some (toast_error "Please provide a reason for rejection")))
  /\ (allWhiteSpace c = false ->
      truthy id = true -> is_Some (getExpenseById id st) ->
      handleReject (Some id) c nowIso st
      = (Some (toast_success "Expense rejected"),
         snd (rejectExpense id c nowIso st))).
Proof.
  intros Hu Hfind.
  assert (Hrej : rejectExpense id c nowIso st
                 = updateExpense id (reviewData rejected u nowIso (Some c)) st).
  { unfold rejectExpense. by rewrite Hu. }
  split; [|split].
  - intros e'. rewrite Hrej. split_and!; try done.
    + by rewrite (updateExpense_found _ _ _ _ _ Hfind).
    + by apply (storedById_update _ _ _ i).
  - intros pid blank Hblank. unfold handleReject.
    destruct (pageReady pid st) as [j|]; [|by auto].
    rewrite trim_falsy, Hblank. by auto.
  - intros Hc Hid [e He]. unfold handleReject.
    rewrite (pageReady_visible _ _ _ Hid He), trim_falsy, Hc, Hrej.
    by rewrite (updateExpense_found _ _ _ _ _ Hfind).
Qed.

End Reject.

(** C3, as stated, fails in its first half: Sarah rejects the submitted
    lunch with the empty string, and with blanks; both calls return and
    the expense is stored as rejected with these comments. *)
Lemma reject_with_empty_comments_succeeds :
  status <$> storedById "2" (session sarah) = Some submitted
  /\ (let r := rejectExpense "2" "" "2023-11-02T09:00:00Z" (session sarah) in
      (fun e => (status e, comments e)) <$> returned (fst r)
        = Some (rejected, Some "")
      /\ (fun e => (status e, comments e)) <$> storedById "2" (snd r)
        = Some (rejected, Some ""))
  /\ (let r := rejectExpense "2" "   " "2023-11-02T09:00:00Z" (session sarah) in
      (fun e => (status e, comments e)) <$> storedById "2" (snd r)
        = Some (rejected, Some "   ")).
Proof. vm_compute. repeat split. Qed.

Lemma reject_comments_checked_by_handler_witness :
  user (session sarah) = Some sarah
  /\ list_find (fun e => expense_id e = "2") (getItem (session sarah))
     = Some (1, teamLunch)
  /\ handleReject (Some "2") "Use per-diem instead" "2023-11-02T09:00:00Z"
       (session sarah)
     = (Some (toast_success "Expense rejected"),
        snd (rejectExpense "2" "Use per-diem instead" "2023-11-02T09:00:00Z"
               (session sarah)))
  /\ snd (handleReject (Some "2") " " "2023-11-02T09:00:00Z" (session sarah))
     = session sarah.
Proof.
  assert (Hu : user (session sarah) = Some sarah) by reflexivity.
  assert (Hf : list_find (fun e => expense_id e = "2") (getItem (session sarah))
               = Some (1, teamLunch)) by (vm_compute; reflexivity).
  destruct (reject_comments_checked_by_handler (session sarah) sarah "2"
              "Use per-diem instead" "2023-11-02T09:00:00Z" 1 teamLunch Hu Hf)
    as (_ & Hblank & Hcall).
  split; [exact Hu|]. split; [exact Hf|]. split.
  - apply Hcall; [reflexivity|reflexivity|]. vm_compute. eauto.
  - apply (Hblank (Some "2") " "). reflexivity.
Defined.

(** ** Visibility *)

Section Visibility.
Context {num : Type}.
Implicit Types (st : Ctx num) (e : Expense num) (p : User).

(** Whoever is logged in, the visible list is taken from the store. *)
Lemma visible_stored st e : e ∈ expenses (loadExpenses st) -> e ∈ getItem st.
Proof.
  unfold loadExpenses; simpl. destruct (user st) as [u|]; [|done].
  destruct (bool_decide (user_role u = employee)); [|done].
  by intros [_ ?]%list_elem_of_filter.
Qed.

(** C4.  Listing the expenses as [p]: for an employee the list is the
    store filtered to the records whose [submittedBy] is the id of [p], so
    a record is listed exactly when it is stored and submitted by [p]; for
    a manager or an admin the list is the whole store. *)
Theorem listing_by_role st p :
  user st = Some p ->
  (user_role p = employee ->
     expenses (loadExpenses st)
     = filter (fun e => submittedBy e = user_id p) (getItem st)
     /\ (forall e, e ∈ expenses (loadExpenses st)
                   <-> e ∈ getItem st /\ submittedBy e = user_id p))
  /\ (user_role p = manager \/ user_role p = admin ->
      expenses (loadExpenses st) = getItem st).
Proof.
  intros Hu. unfold loadExpenses; simpl. rewrite Hu. split.
  - intros ->. simpl. split; [done|].
    intros e. rewrite list_elem_of_filter. tauto.
  - by intros [-> | ->].
Qed.

End Visibility.

Lemma listing_by_role_witness :
  user (setUser (Some john) (session emily)) = Some john
  /\ (forall e, e ∈ expenses (loadExpenses (setUser (Some john) (session emily)))
                <-> e ∈ INITIAL_EXPENSES /\ submittedBy e = "1").
Proof.
  split; [reflexivity|].
  apply (listing_by_role (setUser (Some john) (session emily)) john);
    reflexivity.
Defined.

(** ** Submission *)

Section Submit.
Context {num : Type}.
Implicit Types (st : Ctx num) (e old : Expense num) (id : string).

(** [old] with another status. *)
Lemma spread_status_only old (s : ExpenseStatus) :
  spread old (statusOnly s)
  = mkExpense (expense_id old) (title old) (amount old) (date old)
      (category old) (description old) s (receiptUrl old)
      (submittedBy old) (submittedByName old) (submittedAt old)
      (reviewedBy old) (reviewedByName old) (reviewedAt old) (comments old).
Proof. reflexivity. Qed.

(** C7.  Resubmitting a rejected expense: [submitExpense] by the owner
    returns, and stores in its place, the record with status [submitted]
    whose other fields, the review fields [reviewedBy], [reviewedByName],
    [reviewedAt] and [comments] among them, are those of the rejected
    record; the other records of the store are untouched. *)
Theorem resubmit_keeps_review_history st u id i old :
  user st = Some u -> submittedBy old = user_id u -> status old = rejected ->
  list_find (fun e => expense_id e = id) (getItem st) = Some (i, old) ->
  let e' :=
    mkExpense (expense_id old) (title old) (amount old) (date old)
      (category old) (description old) submitted (receiptUrl old)
      (submittedBy old) (submittedByName old) (submittedAt old)
      (reviewedBy old) (reviewedByName old) (reviewedAt old) (comments old) in
  fst (submitExpense id st) = Returned e'
  /\ getItem (snd (submitExpense id st)) = <[i := e']> (getItem st)
  /\ storedById id (snd (submitExpense id st)) = Some e'
  /\ status e' = submitted
  /\ reviewedBy e' = reviewedBy old
  /\ reviewedByName e' = reviewedByName old
  /\ reviewedAt e' = reviewedAt old
  /\ comments e' = comments old.
Proof.
  intros _ _ _ Hfind e'. unfold submitExpense.
  split_and!; try done.
  - by rewrite (updateExpense_found _ _ _ _ _ Hfind).
  - by rewrite (updateExpense_found _ _ _ _ _ Hfind).
  - exact (storedById_update id (statusOnly submitted) st i old Hfind eq_refl).
Qed.

End Submit.

Lemma resubmit_keeps_review_history_witness :
  user (session john) = Some john
  /\ submittedBy newLaptop = user_id john
  /\ status newLaptop = rejected
  /\ list_find (fun e => expense_id e = "3") (getItem (session john))
     = Some (2, newLaptop)
  /\ (fun e => (status e, reviewedBy e, comments e))
       <$> storedById "3" (snd (submitExpense "3" (session john)))
     = Some (submitted, Some "2",
             Some "Please use the standard equipment request process instead").
Proof.
  assert (Hf : list_find (fun e => expense_id e = "3") (getItem (session john))
               = Some (2, newLaptop)) by (vm_compute; reflexivity).
  split_and!; [reflexivity| reflexivity| reflexivity| exact Hf|].
  destruct (resubmit_keeps_review_history (session john) john "3" 2 newLaptop
              eq_refl eq_refl eq_refl Hf) as (_ & _ & -> & _).
  reflexivity.
Defined.

(** ** Creation *)

Section Create.
Context {num : Type}.
Implicit Types (st : Ctx num) (e : Expense num) (data : ExpenseData num).

Lemma createExpense_logged_in data nowMs nowIso st u :
  user st = Some u ->
  exists e,
    createExpense data nowMs nowIso st
    = (Returned e,
       setLoading false
         (loadExpenses (setItem (getItem st ++ [e]) (setLoading true st))))
    /\ e = mkExpense nowMs (d_title data) (d_amount data) (d_date data)
             (d_category data) (d_description data) draft (d_receiptUrl data)
             (user_id u) (user_name u) nowIso
             (d_reviewedBy data) (d_reviewedByName data) (d_reviewedAt data)
             (d_comments data).
Proof.
  intros Hu. eexists. split; [|reflexivity].
  unfold createExpense.
  change (user (setLoading true st)) with (user st). by rewrite Hu.
Qed.

(** C10.  Whatever object is handed to [createExpense], whatever status
    and submitter fields it carries, the record created for a logged-in
    user, the one returned and appended to the store, has status [draft],
    and its [submittedBy], [submittedByName] and [submittedAt] are the id
    and the name of the session user and the time of the call. *)
Theorem create_stamps_draft_and_submitter data nowMs nowIso st u :
  user st = Some u ->
  exists e,
    fst (createExpense data nowMs nowIso st) = Returned e
    /\ getItem (snd (createExpense data nowMs nowIso st)) = getItem st ++ [e]
    /\ status e = draft
    /\ submittedBy e = user_id u
    /\ submittedByName e = user_name u
    /\ submittedAt e = nowIso.
Proof.
  intros Hu.
  destruct (createExpense_logged_in data nowMs nowIso st u Hu) as (e & -> & ->).
  eexists. by split_and!.
Qed.

End Create.

Lemma create_stamps_draft_and_submitter_witness :
  let data :=
    mkData "Team Lunch" 187.50%float "2023-10-20" meals "Lunch" approved None
           (Some "2") (Some "Sarah Manager") (Some "2023-10-17T14:20:00Z") None
           (Some "9") (Some "2") (Some "Sarah Manager")
           (Some "2020-01-01T00:00:00Z") in
  user (session john) = Some john
  /\ exists e,
       fst (createExpense data "1698915600000" "2023-11-02T09:00:00Z" (session john))
       = Returned e
       /\ getItem (snd (createExpense data "1698915600000" "2023-11-02T09:00:00Z"
                          (session john)))
          = getItem (session john) ++ [e]
       /\ status e = draft
       /\ submittedBy e = "1"
       /\ submittedByName e = "John Employee"
       /\ submittedAt e = "2023-11-02T09:00:00Z".
Proof.
  split; [reflexivity|].
  apply (create_stamps_draft_and_submitter _ _ _ (session john) john).
  reflexivity.
Defined.

(** ** Deletion *)

Section Delete.
Context {num : Type}.
Implicit Types (st : Ctx num) (e : Expense num) (id : string).

Lemma getItem_deleteExpense id st :
  getItem (snd (deleteExpense id st))
  = filter (fun e => expense_id e <> id) (getItem st).
Proof. reflexivity. Qed.

Lemma list_find_absent id (l : list (Expense num)) :
  (forall e, e ∈ l -> expense_id e <> id) ->
  list_find (fun e => expense_id e = id) l = None.
Proof.
  intros Hl. apply list_find_None, Forall_forall. intros e He. by apply Hl.
Qed.

Lemma canDelete_true st e :
  canDelete st (Some e) = true -> status e = draft.
Proof.
  unfold canDelete. destruct (user st) as [u|]; [|done].
  intros [_ Hst]%andb_prop. by apply bool_decide_eq_true in Hst.
Qed.

(** C6 (as amended).  [deleteExpense] does not look at the status: for
    every id it returns and leaves in the store the records with another
    id, so that afterwards the id is neither in the store nor found by
    [getExpenseById]; this is so for a draft, and as well for a submitted,
    approved or rejected expense.  Deletion is restricted to drafts by the
    guard [canDelete] of the detail page: on an expense in another status
    the delete control is not there and a click on it changes nothing. *)
Theorem delete_not_gated_by_status st id :
  fst (deleteExpense id st) = Returned tt
  /\ getItem (snd (deleteExpense id st))
     = filter (fun e => expense_id e <> id) (getItem st)
  /\ storedById id (snd (deleteExpense id st)) = None
  /\ getExpenseById id (snd (deleteExpense id st)) = None
  /\ (forall e, canDelete st (Some e) = true -> status e = draft)
  /\ (forall pid e confirmed,
        pageExpense pid st = Some e -> status e <> draft ->
        click pid (ClickDelete confirmed) st = (None, st)).
Proof.
  split_and!.
  - done.
  - done.
  - unfold storedById. rewrite getItem_deleteExpense.
    rewrite list_find_absent; [done|].
    by intros e [? _]%list_elem_of_filter.
  - unfold getExpenseById. rewrite list_find_absent; [done|].
    intros e He.
    change (expenses (snd (deleteExpense id st)))
      with (expenses (loadExpenses (setItem
              (filter (fun e => expense_id e <> id) (getItem st))
              (setLoading true st)))) in He.
    apply visible_stored in He. rewrite getItem_setItem in He.
    by apply list_elem_of_filter in He as [? _].
  - apply canDelete_true.
  - intros pid e confirmed He Hst. unfold click.
    destruct (loading st); [done|]. rewrite He.
    destruct (canDelete st (Some e)) eqn:Hc; [|done].
    by apply canDelete_true in Hc.
Qed.

End Delete.

(** C6, as stated, fails in its first half: John deletes his approved,
    his submitted and his rejected expense; each call returns and the
    expense is gone from the store. *)
Lemma delete_outside_draft_succeeds :
  map status INITIAL_EXPENSES = [approved; submitted; rejected]
  /\ (let r := deleteExpense "1" (session john) in
      fst r = Returned tt /\ storedById "1" (snd r) = None
      /\ map expense_id (getItem (snd r)) = ["2"; "3"])
  /\ (let r := deleteExpense "2" (session john) in
      fst r = Returned tt /\ storedById "2" (snd r) = None
      /\ map expense_id (getItem (snd r)) = ["1"; "3"])
  /\ (let r := deleteExpense "3" (session john) in
      fst r = Returned tt /\ storedById "3" (snd r) = None
      /\ map expense_id (getItem (snd r)) = ["1"; "2"]).
Proof. vm_compute. repeat split. Qed.

(** The guard at work: on the page of his approved trip John finds no
    delete control. *)
Lemma delete_not_gated_by_status_witness :
  click (Some "1") (ClickDelete true) (session john) = (None, session john)
  /\ getExpenseById "2" (snd (deleteExpense "2" (session john))) = None.
Proof.
  destruct (delete_not_gated_by_status (session john) "1")
    as (_ & _ & _ & _ & _ & Hclick).
  destruct (delete_not_gated_by_status (session john) "2")
    as (_ & _ & _ & Hgone & _).
  split; [|exact Hgone].
  apply (Hclick (Some "1") businessTrip true);
    [vm_compute; reflexivity | discriminate].
Defined.

(** ** Amounts *)

Section Amounts.
Context {num : Type} `{JsNumber num} `{JsonNumber num}.
Variables (Number parseFloat : string -> num).
Implicit Types (st : Ctx num) (e old : Expense num) (id : string)
  (d : PartialExpense num) (data : ExpenseData num) (f : FormState).

Lemma storedPositive_json e :
  num_ltb num_zero (amount e) = true -> num_json (amount e) = Some (amount e) ->
  storedPositive (jsonRecord e).
Proof. intros Hpos Hjson. unfold storedPositive. simpl. by rewrite Hjson. Qed.

Lemma createExpense_keeps_positive data nowMs nowIso st :
  Forall storedPositive (persisted (getItem st)) ->
  num_ltb num_zero (d_amount data) = true ->
  num_json (d_amount data) = Some (d_amount data) ->
  Forall storedPositive
         (persisted (getItem (snd (createExpense data nowMs nowIso st)))).
Proof.
  intros Hall Hpos Hjson. unfold createExpense.
  change (user (setLoading true st)) with (user st).
  destruct (user st) as [u|]; [|done].
  match goal with
  | |- Forall _ (persisted (getItem (snd (Returned ?e, _)))) =>
      change (Forall storedPositive (jsonRecord <$> (getItem st ++ [e])))
  end.
  rewrite fmap_app. apply Forall_app. split; [done|].
  apply Forall_singleton. by apply storedPositive_json.
Qed.

Lemma updateExpense_keeps_positive id d st :
  Forall storedPositive (persisted (getItem st)) ->
  (forall a, p_amount d = Some a ->
             num_ltb num_zero a = true /\ num_json a = Some a) ->
  Forall storedPositive (persisted (getItem (snd (updateExpense id d st)))).
Proof.
  intros Hall Hpos.
  destruct (list_find (fun e => expense_id e = id) (getItem st))
    as [[i old]|] eqn:Hfind.
  - rewrite (updateExpense_found _ _ _ _ _ Hfind).
    change (Forall storedPositive
              (jsonRecord <$> <[i := spread old d]> (getItem st))).
    rewrite list_fmap_insert. apply Forall_insert; [done|].
    apply list_find_Some in Hfind as (Hi & _).
    unfold storedPositive. simpl.
    destruct (p_amount d) as [a|] eqn:Ha; simpl.
    + destruct (Hpos a eq_refl) as [Hlt Hjson]. by rewrite Hjson.
    + assert (Hold : persisted (getItem st) !! i = Some (jsonRecord old)).
      { unfold persisted.
        change (map jsonRecord (getItem st)) with (jsonRecord <$> getItem st).
        by rewrite list_lookup_fmap, Hi. }
      exact (Forall_lookup_1 _ _ _ _ Hall Hold).
  - by rewrite (updateExpense_missing _ _ _ Hfind).
Qed.

Lemma validateForm_amount f :
  validateForm Number f = true ->
  truthy (f_amount f) = true
  /\ num_isNaN (Number (f_amount f)) = false
  /\ num_leb (Number (f_amount f)) num_zero = false.
Proof.
  unfold validateForm, formErrors. intros Hlen%bool_decide_eq_true.
  rewrite !length_app in Hlen.
  destruct (truthy (f_amount f)); simpl in Hlen;
    [|destruct (negb (truthy (trim (f_title f)))); simpl in Hlen; lia].
  destruct (num_isNaN (Number (f_amount f))); simpl in Hlen;
    [destruct (negb (truthy (trim (f_title f)))); simpl in Hlen; lia|].
  destruct (num_leb (Number (f_amount f)) num_zero); simpl in Hlen;
    [destruct (negb (truthy (trim (f_title f)))); simpl in Hlen; lia|].
  done.
Qed.

(** C5 (as amended).  [createExpense] and [updateExpense] validate
    nothing.  They return the record with the amount they are given,
    whatever its sign (an update that gives none returns the amount that
    the text held), and write it to [localStorage] through JSON: what
    the text holds for this record is the amount as JSON gives it back,
    the very number when it is finite and [null] for [NaN] or an infinity.
    So [amount > 0] is kept on all of what is stored by a create or an
    update whose amount, if it supplies one, is positive and survives
    JSON.  The check of the sign is made by [validateForm] of the expense
    form: a form whose amount is empty, not a number or at most 0 is not
    valid, and the form's submit handler then changes nothing. *)
Theorem amount_checked_by_form_only :
  (forall data nowMs nowIso st u,
     user st = Some u ->
     exists e r,
       fst (createExpense data nowMs nowIso st) = Returned e
       /\ amount e = d_amount data
       /\ persisted (getItem (snd (createExpense data nowMs nowIso st)))
          = persisted (getItem st) ++ [r]
       /\ amount r = num_json (d_amount data))
  /\ (forall id d st i old,
        list_find (fun e => expense_id e = id) (getItem st) = Some (i, old) ->
        exists e r,
          fst (updateExpense id d st) = Returned e
          /\ (forall a, p_amount d = Some a -> amount e = a)
          /\ (p_amount d = None -> num_json (amount old) = Some (amount old) ->
              amount e = amount old)
          /\ persisted (getItem (snd (updateExpense id d st)))
             = <[i := r]> (persisted (getItem st))
          /\ amount r = num_json (default (amount old) (p_amount d)))
  /\ (forall data nowMs nowIso st,
        Forall storedPositive (persisted (getItem st)) ->
        num_ltb num_zero (d_amount data) = true ->
        num_json (d_amount data) = Some (d_amount data) ->
        Forall storedPositive
               (persisted (getItem (snd (createExpense data nowMs nowIso st)))))
  /\ (forall id d st,
        Forall storedPositive (persisted (getItem st)) ->
        (forall a, p_amount d = Some a ->
                   num_ltb num_zero a = true /\ num_json a = Some a) ->
        Forall storedPositive
               (persisted (getItem (snd (updateExpense id d st)))))
  /\ (forall f,
        validateForm Number f = true ->
        truthy (f_amount f) = true
        /\ num_isNaN (Number (f_amount f)) = false
        /\ num_leb (Number (f_amount f)) num_zero = false)
  /\ (forall f pid submitAsDraft nowMs nowIso st,
        validateForm Number f = false ->
        formSubmit Number parseFloat f pid submitAsDraft nowMs nowIso st
        = ([], st)).
Proof.
  split_and!.
  - intros data nowMs nowIso st u Hu.
    destruct (createExpense_logged_in data nowMs nowIso st u Hu) as (e & Hc & He).
    rewrite Hc. exists e, (jsonRecord e). split_and!.
    + done.
    + by rewrite He.
    + change (persisted (getItem st ++ [e]) = persisted (getItem st) ++ [jsonRecord e]).
      unfold persisted. by rewrite map_app.
    + by rewrite He.
  - intros id d st i old Hfind.
    rewrite (updateExpense_found _ _ _ _ _ Hfind).
    exists (spread old d), (jsonRecord (spread old d)).
    split_and!; [done|by intros a Ha; simpl; rewrite Ha
                |by intros Ha _; simpl; rewrite Ha| |done].
    change (jsonRecord <$> <[i := spread old d]> (getItem st)
            = <[i := jsonRecord (spread old d)]> (jsonRecord <$> getItem st)).
    apply list_fmap_insert.
  - apply createExpense_keeps_positive.
  - apply updateExpense_keeps_positive.
  - apply validateForm_amount.
  - intros f pid submitAsDraft nowMs nowIso st Hv.
    unfold formSubmit. by rewrite Hv.
Qed.

End Amounts.

(** C5, as stated, fails: John creates an expense of -5 and sets the
    amount of his rejected laptop expense to 0; both calls return and the
    amounts are stored, and are what the text in [localStorage] holds. *)
Lemma non_positive_amount_is_stored :
  (let data :=
     mkData "Refund" (-5)%float "2023-11-01" other "Money back" draft None
            None None None None None None None None in
   let r := createExpense data "1698915600000" "2023-11-02T09:00:00Z"
              (session john) in
   amount <$> returned (fst r) = Some (-5)%float
   /\ amount <$> storedById "1698915600000" (snd r) = Some (-5)%float
   /\ amount <$> (snd <$> list_find (fun x => expense_id x = "1698915600000")
                            (persisted (getItem (snd r))))
      = Some (Some (-5)%float)
   /\ num_leb (-5)%float num_zero = true)
  /\ (let d :=
        mkPartial None None (Some 0%float) None None None None None
                  None None None None None None None in
      let r := updateExpense "3" d (session john) in
      amount <$> returned (fst r) = Some 0%float
      /\ amount <$> storedById "3" (snd r) = Some 0%float
      /\ amount <$> (snd <$> list_find (fun x => expense_id x = "3")
                               (persisted (getItem (snd r))))
         = Some (Some 0%float)
      /\ num_ltb num_zero 0%float = false).
Proof. vm_compute. repeat split. Qed.

(** The form at work: an amount of 2100 passes [validateForm]; with the
    amount 'abc', which is not a number, the form is not valid and its
    submit handler does nothing.  Creating the expense of 45.2, a finite
    amount, keeps all stored amounts positive; an amount of infinity
    would be written as [null]. *)
Lemma amount_checked_by_form_only_witness :
  let good := mkForm "New Laptop" "2100" "2023-10-22" equipment "Laptop" "" None in
  let bad := mkForm "New Laptop" "abc" "2023-10-22" equipment "Laptop" "" None in
  let data :=
    mkData "Client Dinner" 45.2%float "2023-10-25" meals "Dinner" draft None
           None None None None None None None None in
  num_leb (numeral (f_amount good)) num_zero = false
  /\ formSubmit numeral numeral bad None true "1698915600000"
       "2023-11-02T09:00:00Z" (session john) = ([], session john)
  /\ Forall storedPositive
       (persisted (getItem (snd (createExpense data "1698915600000"
                                   "2023-11-02T09:00:00Z" (session john)))))
  /\ num_json PrimFloat.infinity = None.
Proof.
  intros good bad data.
  destruct (amount_checked_by_form_only numeral numeral)
    as (_ & _ & Hcreate & _ & Hvalid & Hinvalid).
  split_and!.
  - apply (Hvalid good). vm_compute. reflexivity.
  - apply Hinvalid. vm_compute. reflexivity.
  - apply Hcreate; [|reflexivity|reflexivity].
    repeat constructor.
  - reflexivity.
Defined.

(** ** Editing *)

Section Edit.
Context {num : Type} `{JsNumber num}.
Variables (Number parseFloat : string -> num).
Implicit Types (st : Ctx num) (e old : Expense num) (id : string)
  (d : PartialExpense num) (f : FormState).

(** The record [old] once the form [f] is saved over it with status [s]. *)
Lemma spread_formPartial old f :
  spread old (formPartial parseFloat f)
  = mkExpense (expense_id old) (f_title f) (parseFloat (f_amount f))
      (f_date f) (f_category f) (f_description f) draft
      (Some (uploadedReceiptUrl f))
      (submittedBy old) (submittedByName old) (submittedAt old)
      (reviewedBy old) (reviewedByName old) (reviewedAt old) (comments old).
Proof. reflexivity. Qed.

Lemma formSubmit_edit f id submitAsDraft nowMs nowIso st i old :
  validateForm Number f = true -> truthy id = true ->
  is_Some (getExpenseById id st) ->
  list_find (fun e => expense_id e = id) (getItem st) = Some (i, old) ->
  formSubmit Number parseFloat f (Some id) submitAsDraft nowMs nowIso st
  = submitSaved submitAsDraft (spread old (formPartial parseFloat f))
      [toast_success "Expense updated successfully"]
      (snd (updateExpense id (formPartial parseFloat f) st)).
Proof.
  intros Hv Hid [e0 He0] Hfind. unfold formSubmit.
  rewrite Hv, Hid, He0. simpl.
  by rewrite (updateExpense_found _ _ _ _ _ Hfind).
Qed.

(** C8 (as amended).  An edit is made through the expense form.  On a
    valid form for a visible expense that is in the store, saving the form
    as a draft overwrites [title], [amount], [date], [category],
    [description] and [receiptUrl] with the fields of the form and sets
    the status to [draft], whatever it was, so that an edited rejected
    expense becomes a draft; 'update and submit' leaves it [submitted].
    The id, the submitter fields, the review fields and the comments are
    kept.  [updateExpense] itself overwrites the keys that are present in
    its argument and no other: called with content keys only, it leaves
    the status as it is. *)
Theorem form_edit_sets_status_draft f id nowMs nowIso st i old :
  validateForm Number f = true -> truthy id = true ->
  is_Some (getExpenseById id st) ->
  list_find (fun e => expense_id e = id) (getItem st) = Some (i, old) ->
  let edited s :=
    mkExpense (expense_id old) (f_title f) (parseFloat (f_amount f))
      (f_date f) (f_category f) (f_description f) s
      (Some (uploadedReceiptUrl f))
      (submittedBy old) (submittedByName old) (submittedAt old)
      (reviewedBy old) (reviewedByName old) (reviewedAt old) (comments old) in
  storedById id
    (snd (formSubmit Number parseFloat f (Some id) true nowMs nowIso st))
  = Some (edited draft)
  /\ storedById id
       (snd (formSubmit Number parseFloat f (Some id) false nowMs nowIso st))
     = Some (edited submitted)
  /\ (forall d,
        p_id d = None -> p_status d = None ->
        p_submittedBy d = None -> p_submittedByName d = None ->
        p_submittedAt d = None -> p_reviewedBy d = None ->
        p_reviewedByName d = None -> p_reviewedAt d = None ->
        p_comments d = None ->
        let e' :=
          mkExpense (expense_id old)
            (default (title old) (p_title d))
            (default (amount old) (p_amount d))
            (default (date old) (p_date d))
            (default (category old) (p_category d))
            (default (description old) (p_description d))
            (status old)
            (default (receiptUrl old) (p_receiptUrl d))
            (submittedBy old) (submittedByName old) (submittedAt old)
            (reviewedBy old) (reviewedByName old) (reviewedAt old)
            (comments old) in
        fst (updateExpense id d st) = Returned e'
        /\ storedById id (snd (updateExpense id d st)) = Some e').
Proof.
  intros Hv Hid Hvis Hfind edited.
  pose proof (list_find_update id (formPartial parseFloat f) st i old
                Hfind eq_refl) as Hfind1.
  assert (Hold : expense_id old = id).
  { by apply list_find_Some in Hfind as (_ & ? & _). }
  split; [|split].
  - rewrite (formSubmit_edit _ _ _ _ _ _ _ _ Hv Hid Hvis Hfind). simpl.
    unfold storedById. by rewrite Hfind1.
  - rewrite (formSubmit_edit _ _ _ _ _ _ _ _ Hv Hid Hvis Hfind).
    unfold submitSaved, submitExpense.
    change (expense_id (spread old (formPartial parseFloat f)))
      with (expense_id old). rewrite Hold.
    rewrite (updateExpense_found _ _ _ _ _ Hfind1).
    pose proof (storedById_update id (statusOnly submitted) _ i _
                  Hfind1 eq_refl) as Hs.
    rewrite (updateExpense_found _ _ _ _ _ Hfind1) in Hs. exact Hs.
  - intros d Hd1 Hd2 Hd3 Hd4 Hd5 Hd6 Hd7 Hd8 Hd9 e'.
    assert (He' : spread old d = e').
    { unfold spread, e'.
      by rewrite Hd1, Hd2, Hd3, Hd4, Hd5, Hd6, Hd7, Hd8, Hd9. }
    rewrite <- He'. split.
    + by rewrite (updateExpense_found _ _ _ _ _ Hfind).
    + by apply (storedById_update _ _ _ i).
Qed.

End Edit.

(** C8, as stated, fails: John, who owns the rejected laptop expense and
    may edit it, saves the edit form with a new description.  The stored
    expense is a draft afterwards, no longer rejected. *)
Lemma edited_rejected_expense_becomes_draft :
  let f := mkForm "New Laptop" "1899.99" "2023-10-22" equipment
             "Replacement laptop, quote attached"
             "https://example.com/receipt3.pdf" None in
  let r := formSubmit numeral numeral f (Some "3") true
             "1698915600000" "2023-11-02T09:00:00Z" (session john) in
  canEdit (session john) (getExpenseById "3" (session john)) = true
  /\ status <$> storedById "3" (session john) = Some rejected
  /\ fst r = [toast_success "Expense updated successfully"]
  /\ (fun e => (status e, description e)) <$> storedById "3" (snd r)
     = Some (draft, "Replacement laptop, quote attached").
Proof. vm_compute. repeat split. Qed.

Lemma form_edit_sets_status_draft_witness :
  let f := mkForm "New Laptop" "2100" "2023-10-22" equipment
             "Replacement laptop, quote attached" "" None in
  validateForm numeral f = true
  /\ truthy "3" = true
  /\ is_Some (getExpenseById "3" (session john))
  /\ list_find (fun e => expense_id e = "3") (getItem (session john))
     = Some (2, newLaptop)
  /\ status <$> storedById "3"
       (snd (formSubmit numeral numeral f (Some "3") false
               "1698915600000" "2023-11-02T09:00:00Z" (session john)))
     = Some submitted.
Proof.
  intros f.
  assert (Hv : validateForm numeral f = true) by (vm_compute; reflexivity).
  assert (Hvis : is_Some (getExpenseById "3" (session john)))
    by (vm_compute; eauto).
  assert (Hf : list_find (fun e => expense_id e = "3") (getItem (session john))
               = Some (2, newLaptop)) by (vm_compute; reflexivity).
  split_and!; [exact Hv | reflexivity | exact Hvis | exact Hf |].
  destruct (form_edit_sets_status_draft numeral numeral f "3"
              "1698915600000" "2023-11-02T09:00:00Z" (session john) 2 newLaptop
              Hv eq_refl Hvis Hf) as (_ & -> & _).
  reflexivity.
Defined.

(** ** Totals by category *)

Section CategoryTotals.
Context {num : Type} `{ExactNumber num}.
Implicit Types (l : list (Expense num)) (o : list (ExpenseCategory * num))
  (s a x : num).









End CategoryTotals.



(** * Further properties *)

(** ** The provider, step by step *)

Section ProviderSteps.
Context {num : Type}.
Implicit Types (st : Ctx num) (e old : Expense num) (id : string)
  (d : PartialExpense num) (data : ExpenseData num) (l : list (Expense num)).

Lemma getItem_updateExpense id d st :
  getItem (snd (updateExpense id d st))
  = match list_find (fun e => expense_id e = id) (getItem st) with
    | Some (i, old) => <[i := spread old d]> (getItem st)
    | None => getItem st
    end.
Proof.
  destruct (list_find _ (getItem st)) as [[i old]|] eqn:Hfind.
  - by rewrite (updateExpense_found _ _ _ _ _ Hfind).
  - by rewrite (updateExpense_missing _ _ _ Hfind).
Qed.

Lemma expenses_updateExpense id d st :
  expenses (snd (updateExpense id d st))
  = match list_find (fun e => expense_id e = id) (getItem st) with
    | Some (i, old) =>
        expenses (loadExpenses (setItem (<[i := spread old d]> (getItem st)) st))
    | None => expenses st
    end.
Proof.
  destruct (list_find _ (getItem st)) as [[i old]|] eqn:Hfind.
  - by rewrite (updateExpense_found _ _ _ _ _ Hfind).
  - by rewrite (updateExpense_missing _ _ _ Hfind).
Qed.

Lemma user_updateExpense id d st : user (snd (updateExpense id d st)) = user st.
Proof.
  destruct (list_find (fun e => expense_id e = id) (getItem st))
    as [[i old]|] eqn:Hfind.
  - by rewrite (updateExpense_found _ _ _ _ _ Hfind).
  - by rewrite (updateExpense_missing _ _ _ Hfind).
Qed.

Lemma approveExpense_cases id c nowIso st :
  (user st = None /\ approveExpense id c nowIso st = (Threw "User not authenticated", st))
  \/ (exists u, user st = Some u
        /\ approveExpense id c nowIso st
           = updateExpense id (reviewData approved u nowIso c) st).
Proof.
  unfold approveExpense. destruct (user st) as [u|]; [right|left]; eauto.
Qed.

Lemma rejectExpense_cases id c nowIso st :
  (user st = None /\ rejectExpense id c nowIso st = (Threw "User not authenticated", st))
  \/ (exists u, user st = Some u
        /\ rejectExpense id c nowIso st
           = updateExpense id (reviewData rejected u nowIso (Some c)) st).
Proof.
  unfold rejectExpense. destruct (user st) as [u|]; [right|left]; eauto.
Qed.

(** Replacing a record that does not satisfy [P] by another one that does
    not either changes nothing for a search for [P]. *)
Lemma list_find_insert_other (P : Expense num -> Prop)
    `{!forall x, Decision (P x)} l i x y :
  l !! i = Some x -> ~ P x -> ~ P y ->
  list_find P (<[i := y]> l) = list_find P l.
Proof.
  revert i. induction l as [|z l IH]; intros [|i] Hi Hx Hy; simplify_eq/=.
  - by rewrite !decide_False.
  - destruct (decide (P z)); [done|]. by rewrite (IH i).
Qed.

(** A search in what a filter keeps, for something the filter keeps. *)
Lemma list_find_filter_keeps (P Q : Expense num -> Prop)
    `{!forall x, Decision (P x), !forall x, Decision (Q x)} l :
  (forall x, P x -> Q x) ->
  snd <$> list_find P (filter Q l) = snd <$> list_find P l.
Proof.
  intros HPQ. induction l as [|z l IH]; [done|].
  rewrite filter_cons. destruct (decide (Q z)) as [Hq|Hq]; simpl.
  - destruct (decide (P z)); [done|].
    destruct (list_find P (filter Q l)) as [[? ?]|],
             (list_find P l) as [[? ?]|]; simpl in *; congruence.
  - rewrite decide_False by (intros Hp; by apply Hq, HPQ).
    rewrite IH. by destruct (list_find P l) as [[? ?]|].
Qed.

Lemma ids_updateExpense id d st :
  p_id d = None ->
  map expense_id (getItem (snd (updateExpense id d st)))
  = map expense_id (getItem st).
Proof.
  intros Hid. rewrite getItem_updateExpense.
  destruct (list_find _ (getItem st)) as [[i old]|] eqn:Hfind; [|done].
  apply list_find_Some in Hfind as (Hi & _ & _).
  change (expense_id <$> <[i := spread old d]> (getItem st)
          = expense_id <$> getItem st).
  rewrite list_fmap_insert. apply list_insert_id.
  rewrite list_lookup_fmap, Hi. simpl. by rewrite Hid.
Qed.

Lemma submission_review old (s : ExpenseStatus) u nowIso c :
  submission (spread old (reviewData (num := num) s u nowIso c)) = submission old.
Proof. reflexivity. Qed.

Lemma submission_updateExpense id d st :
  (forall old, submission (spread old d) = submission old) ->
  map submission (getItem (snd (updateExpense id d st)))
  = map submission (getItem st).
Proof.
  intros Hd. rewrite getItem_updateExpense.
  destruct (list_find _ (getItem st)) as [[i old]|] eqn:Hfind; [|done].
  apply list_find_Some in Hfind as (Hi & _ & _).
  change (submission <$> <[i := spread old d]> (getItem st)
          = submission <$> getItem st).
  rewrite list_fmap_insert. apply list_insert_id.
  rewrite list_lookup_fmap, Hi. simpl. by rewrite Hd.
Qed.

(** X1.  [updateExpense] returns exactly when the id is in the store.
    When it is not, the call throws 'Expense not found' and leaves the
    store and the visible list as they are; it records the error
    'Failed to update expense' and ends the loading. *)
Theorem update_returns_iff_stored id d st :
  ((exists e, fst (updateExpense id d st) = Returned e)
   <-> is_Some (storedById id st))
  /\ (storedById id st = None ->
      fst (updateExpense id d st) = Threw "Expense not found"
      /\ stored (snd (updateExpense id d st)) = stored st
      /\ expenses (snd (updateExpense id d st)) = expenses st
      /\ error (snd (updateExpense id d st)) = Some "Failed to update expense"
      /\ loading (snd (updateExpense id d st)) = false).
Proof.
  unfold storedById.
  destruct (list_find (fun e => expense_id e = id) (getItem st))
    as [[i old]|] eqn:Hfind; simpl.
  - rewrite (updateExpense_found _ _ _ _ _ Hfind). split; [|done].
    split; eauto.
  - rewrite (updateExpense_missing _ _ _ Hfind). split; [|done].
    split; [by intros [e ?]|by intros [e ?]].
Qed.

(** X2.  [createExpense] returns exactly when somebody is logged in.
    Otherwise it throws 'User not authenticated', the store and the
    visible list stay as they are, and the error 'Failed to create
    expense' is recorded. *)
Theorem create_returns_iff_logged_in data nowMs nowIso st :
  ((exists e, fst (createExpense data nowMs nowIso st) = Returned e)
   <-> is_Some (user st))
  /\ (user st = None ->
      fst (createExpense data nowMs nowIso st) = Threw "User not authenticated"
      /\ stored (snd (createExpense data nowMs nowIso st)) = stored st
      /\ expenses (snd (createExpense data nowMs nowIso st)) = expenses st
      /\ error (snd (createExpense data nowMs nowIso st))
         = Some "Failed to create expense").
Proof.
  split.
  - split.
    + intros [e He]. unfold createExpense in He.
      change (user (setLoading true st)) with (user st) in He.
      destruct (user st); [eauto|discriminate].
    + intros [u Hu].
      destruct (createExpense_logged_in data nowMs nowIso st u Hu) as (e & -> & _).
      eauto.
  - intros Hu. unfold createExpense.
    change (user (setLoading true st)) with (user st). by rewrite Hu.
Qed.

(** X3.  An update of one expense leaves every other one alone: if the
    data carry no [id] key, the record stored under any other id is the
    same before and after, and the store keeps its length. *)
Theorem update_leaves_other_ids id id' d st :
  p_id d = None -> id' <> id ->
  storedById id' (snd (updateExpense id d st)) = storedById id' st
  /\ length (getItem (snd (updateExpense id d st))) = length (getItem st).
Proof.
  intros Hid Hne. unfold storedById. rewrite getItem_updateExpense.
  destruct (list_find (fun e => expense_id e = id) (getItem st))
    as [[i old]|] eqn:Hfind; [|done].
  apply list_find_Some in Hfind as (Hi & Hold & _).
  rewrite length_insert. split; [|done].
  rewrite (list_find_insert_other _ _ _ _ _ Hi); [done| |].
  - intros Hold'. apply Hne. by rewrite <- Hold', Hold.
  - simpl. rewrite Hid. simpl. intros Hold'. apply Hne. by rewrite <- Hold', Hold.
Qed.

(** X4.  Ids stay unique.  If no two stored expenses share an id, this
    is still so after a create with a fresh id, after an update whose data
    carry no [id] key, after a delete, a submit, an approve and a
    reject. *)
Theorem unique_ids_kept st :
  NoDup (map expense_id (getItem st)) ->
  (forall data nowMs nowIso,
     nowMs ∉ map expense_id (getItem st) ->
     NoDup (map expense_id (getItem (snd (createExpense data nowMs nowIso st)))))
  /\ (forall id d,
        p_id d = None ->
        NoDup (map expense_id (getItem (snd (updateExpense id d st)))))
  /\ (forall id, NoDup (map expense_id (getItem (snd (deleteExpense id st)))))
  /\ (forall id, NoDup (map expense_id (getItem (snd (submitExpense id st)))))
  /\ (forall id c nowIso,
        NoDup (map expense_id (getItem (snd (approveExpense id c nowIso st)))))
  /\ (forall id c nowIso,
        NoDup (map expense_id (getItem (snd (rejectExpense id c nowIso st))))).
Proof.
  intros Hnd. split_and!.
  - intros data nowMs nowIso Hfresh. unfold createExpense.
    change (user (setLoading true st)) with (user st).
    destruct (user st) as [u|]; [|done].
    match goal with
    | |- NoDup (map expense_id (getItem (snd (Returned ?e, _)))) =>
        change (NoDup (expense_id <$> (getItem st ++ [e])))
    end.
    rewrite fmap_app. apply NoDup_app. split_and!; [done| |apply NoDup_singleton].
    simpl. intros x Hx ->%list_elem_of_singleton. by apply Hfresh.
  - intros id d Hid. by rewrite ids_updateExpense.
  - intros id. rewrite getItem_deleteExpense.
    eapply sublist_NoDup; [exact Hnd|].
    apply fmap_sublist, sublist_filter.
  - intros id. unfold submitExpense. by rewrite ids_updateExpense.
  - intros id c nowIso.
    destruct (approveExpense_cases id c nowIso st) as [[_ ->]|(u & _ & ->)];
      [done|]. by rewrite ids_updateExpense.
  - intros id c nowIso.
    destruct (rejectExpense_cases id c nowIso st) as [[_ ->]|(u & _ & ->)];
      [done|]. by rewrite ids_updateExpense.
Qed.

(** X5.  A submit, an approve or a reject never alters what was handed
    in, nor by whom: every stored expense keeps its id, title, amount,
    date, category, description, receipt and its three submitter fields,
    whether the call succeeds or not. *)
Theorem review_keeps_submission id (c : option string) (c' nowIso : string) st :
  map submission (getItem (snd (submitExpense id st)))
  = map submission (getItem st)
  /\ map submission (getItem (snd (approveExpense id c nowIso st)))
     = map submission (getItem st)
  /\ map submission (getItem (snd (rejectExpense id c' nowIso st)))
     = map submission (getItem st).
Proof.
  split_and!.
  - unfold submitExpense. by apply submission_updateExpense.
  - destruct (approveExpense_cases id c nowIso st) as [[_ ->]|(u & _ & ->)];
      [done|]. by apply submission_updateExpense.
  - destruct (rejectExpense_cases id c' nowIso st) as [[_ ->]|(u & _ & ->)];
      [done|]. by apply submission_updateExpense.
Qed.

End ProviderSteps.

Lemma update_leaves_other_ids_witness :
  storedById "3" (snd (updateExpense "2" (statusOnly approved) (session john)))
  = Some newLaptop.
Proof.
  destruct (update_leaves_other_ids "2" "3" (statusOnly approved) (session john))
    as [-> _]; [reflexivity | discriminate |].
  vm_compute. reflexivity.
Defined.

Lemma unique_ids_kept_witness :
  NoDup (map expense_id (getItem (session john)))
  /\ NoDup (map expense_id (getItem (snd (deleteExpense "2" (session john))))).
Proof.
  assert (Hnd : NoDup (map expense_id (getItem (session john)))).
  { apply (bool_decide_unpack _). vm_compute. exact I. }
  split; [exact Hnd|].
  destruct (unique_ids_kept (session john) Hnd) as (_ & _ & Hdel & _).
  apply Hdel.
Defined.

Section ProviderInvariants.
Context {num : Type}.
Implicit Types (st : Ctx num) (e old : Expense num) (id : string)
  (d : PartialExpense num) (data : ExpenseData num) (l : list (Expense num)).

Lemma loadExpenses_own st u :
  user st = Some u -> user_role u = employee ->
  Forall (fun e => submittedBy e = user_id u) (expenses (loadExpenses st)).
Proof.
  intros Hu Hr. unfold loadExpenses; simpl. rewrite Hu, Hr. simpl.
  apply Forall_forall. by intros e [? _]%list_elem_of_filter.
Qed.

Lemma own_updateExpense id d st u :
  user st = Some u -> user_role u = employee ->
  Forall (fun e => submittedBy e = user_id u) (expenses st) ->
  Forall (fun e => submittedBy e = user_id u)
         (expenses (snd (updateExpense id d st))).
Proof.
  intros Hu Hr Hown. rewrite expenses_updateExpense.
  destruct (list_find _ (getItem st)) as [[i old]|]; [|done].
  by apply loadExpenses_own.
Qed.

(** X6.  An employee never gets to see an expense of somebody else: if
    every expense in the visible list is the employee's own, this is still
    so after each operation of the provider, successful or not. *)
Theorem employee_view_stays_own st u :
  user st = Some u -> user_role u = employee ->
  Forall (fun e => submittedBy e = user_id u) (expenses st) ->
  (forall data nowMs nowIso,
     Forall (fun e => submittedBy e = user_id u)
            (expenses (snd (createExpense data nowMs nowIso st))))
  /\ (forall id d,
        Forall (fun e => submittedBy e = user_id u)
               (expenses (snd (updateExpense id d st))))
  /\ (forall id,
        Forall (fun e => submittedBy e = user_id u)
               (expenses (snd (deleteExpense id st))))
  /\ (forall id,
        Forall (fun e => submittedBy e = user_id u)
               (expenses (snd (submitExpense id st))))
  /\ (forall id c nowIso,
        Forall (fun e => submittedBy e = user_id u)
               (expenses (snd (approveExpense id c nowIso st))))
  /\ (forall id c nowIso,
        Forall (fun e => submittedBy e = user_id u)
               (expenses (snd (rejectExpense id c nowIso st)))).
Proof.
  intros Hu Hr Hown. split_and!.
  - intros data nowMs nowIso.
    destruct (createExpense_logged_in data nowMs nowIso st u Hu) as (e & -> & _).
    by apply (loadExpenses_own (setItem (getItem st ++ [e]) (setLoading true st))).
  - intros id d. by apply own_updateExpense.
  - intros id.
    by apply (loadExpenses_own
                (setItem (filter (fun e => expense_id e <> id) (getItem st))
                         (setLoading true st))).
  - intros id. by apply own_updateExpense.
  - intros id c nowIso. unfold approveExpense. rewrite Hu.
    by apply own_updateExpense.
  - intros id c nowIso. unfold rejectExpense. rewrite Hu.
    by apply own_updateExpense.
Qed.

Lemma list_find_fresh id l :
  id ∉ map expense_id l -> list_find (fun e => expense_id e = id) l = None.
Proof.
  intros Hfresh. apply list_find_absent. intros e He Heq. apply Hfresh.
  rewrite <- Heq. by apply list_elem_of_fmap_2.
Qed.

Lemma list_find_last id l e :
  list_find (fun x => expense_id x = id) l = None -> expense_id e = id ->
  snd <$> list_find (fun x => expense_id x = id) (l ++ [e]) = Some e.
Proof.
  intros Hnone He. rewrite (list_find_app_r _ _ _ Hnone). simpl.
  by rewrite decide_True.
Qed.

(** X7.  What was just created can be fetched: if the id that the clock
    gives is not in the store yet and the amount survives JSON (it is
    finite and not [-0]), the expense that [createExpense] returns is the
    one written to [localStorage] under this id, with this very amount,
    and the one that [getExpenseById] finds, whatever the role of its
    author. *)
Theorem created_expense_is_found `{JsonNumber num} data nowMs nowIso st u :
  user st = Some u -> nowMs ∉ map expense_id (getItem st) ->
  num_json (d_amount data) = Some (d_amount data) ->
  exists e,
    fst (createExpense data nowMs nowIso st) = Returned e
    /\ snd <$> list_find (fun r => expense_id r = nowMs)
                (persisted (getItem (snd (createExpense data nowMs nowIso st))))
       = Some (asWritten e)
    /\ storedById nowMs (snd (createExpense data nowMs nowIso st)) = Some e
    /\ getExpenseById nowMs (snd (createExpense data nowMs nowIso st)) = Some e.
Proof.
  intros Hu Hfresh Hjson.
  destruct (createExpense_logged_in data nowMs nowIso st u Hu) as (e & -> & He).
  assert (Hid : expense_id e = nowMs) by by rewrite He.
  assert (Hby : submittedBy e = user_id u) by by rewrite He.
  assert (Ham : amount e = d_amount data) by by rewrite He.
  pose proof (list_find_fresh _ _ Hfresh) as Hnone.
  exists e. split_and!; [done| | |].
  - change (snd <$> list_find (fun r => expense_id r = nowMs)
                      (jsonRecord <$> (getItem st ++ [e])) = Some (asWritten e)).
    rewrite fmap_app, list_find_app_r.
    + simpl. rewrite decide_True by done. simpl. f_equal.
      unfold jsonRecord, asWritten. by rewrite Ham, Hjson.
    + apply list_find_None, Forall_forall.
      intros r (x & -> & Hx)%list_elem_of_fmap Hr. apply Hfresh.
      change (expense_id x = nowMs) in Hr. rewrite <- Hr.
      by apply list_elem_of_fmap_2.
  - unfold storedById.
    change (getItem _) with (getItem st ++ [e]).
    by apply list_find_last.
  - unfold getExpenseById.
    change (expenses _) with
      (expenses (loadExpenses (setItem (getItem st ++ [e]) (setLoading true st)))).
    unfold loadExpenses; simpl. rewrite Hu.
    change (getItem (setLoading true _)) with (getItem st ++ [e]).
    destruct (bool_decide (user_role u = employee)); [|by apply list_find_last].
    rewrite filter_app, (filter_cons_True _ e) by done. rewrite filter_nil.
    apply list_find_last; [|done].
    apply list_find_absent. intros x [_ Hx]%list_elem_of_filter Heq.
    apply Hfresh. rewrite <- Heq. by apply list_elem_of_fmap_2.
Qed.

Lemma error_updateExpense id d st :
  is_Some (error st) -> is_Some (error (snd (updateExpense id d st))).
Proof.
  intros Herr.
  destruct (list_find (fun e => expense_id e = id) (getItem st))
    as [[i old]|] eqn:Hfind.
  - by rewrite (updateExpense_found _ _ _ _ _ Hfind).
  - rewrite (updateExpense_missing _ _ _ Hfind). simpl. eauto.
Qed.

(** X8.  An error is never cleared: once the provider has recorded an
    error message, every later operation, successful or not, leaves an
    error message in place. *)
Theorem error_is_never_cleared st :
  is_Some (error st) ->
  (forall data nowMs nowIso,
     is_Some (error (snd (createExpense data nowMs nowIso st))))
  /\ (forall id d, is_Some (error (snd (updateExpense id d st))))
  /\ (forall id, is_Some (error (snd (deleteExpense id st))))
  /\ (forall id, is_Some (error (snd (submitExpense id st))))
  /\ (forall id c nowIso, is_Some (error (snd (approveExpense id c nowIso st))))
  /\ (forall id c nowIso, is_Some (error (snd (rejectExpense id c nowIso st))))
  /\ is_Some (error (loadExpenses st)).
Proof.
  intros Herr. split_and!.
  - intros data nowMs nowIso. unfold createExpense.
    change (user (setLoading true st)) with (user st).
    destruct (user st) as [u|]; simpl; eauto.
  - intros. by apply error_updateExpense.
  - done.
  - intros. by apply error_updateExpense.
  - intros id c nowIso.
    destruct (approveExpense_cases id c nowIso st) as [[_ ->]|(u & _ & ->)];
      [done|]. by apply error_updateExpense.
  - intros id c nowIso.
    destruct (rejectExpense_cases id c nowIso st) as [[_ ->]|(u & _ & ->)];
      [done|]. by apply error_updateExpense.
  - done.
Qed.

(** X9.  An approval overwrites the comments with its argument: the
    approved expense carries the comments given to [approveExpense], and
    none when the argument is left out, whatever comments it carried
    before; the reviewer and the time are stamped. *)
Theorem approve_replaces_comments st u id (c : option string) nowIso old :
  user st = Some u -> storedById id st = Some old ->
  exists e',
    fst (approveExpense id c nowIso st) = Returned e'
    /\ storedById id (snd (approveExpense id c nowIso st)) = Some e'
    /\ comments e' = c
    /\ status e' = approved
    /\ reviewedBy e' = Some (user_id u)
    /\ reviewedByName e' = Some (user_name u)
    /\ reviewedAt e' = Some nowIso.
Proof.
  intros Hu [i Hfind]%storedById_Some.
  exists (spread old (reviewData approved u nowIso c)).
  unfold approveExpense. rewrite Hu. split_and!; try done.
  - by rewrite (updateExpense_found _ _ _ _ _ Hfind).
  - by apply (storedById_update _ _ _ i).
Qed.

(** X10.  A delete leaves every other expense alone: the record stored
    under another id is the same before and after; deleting an id that is
    not in the store keeps all records; and deleting twice is deleting
    once. *)
Theorem delete_leaves_other_ids id st :
  (forall id', id' <> id ->
     storedById id' (snd (deleteExpense id st)) = storedById id' st)
  /\ (storedById id st = None ->
      getItem (snd (deleteExpense id st)) = getItem st)
  /\ getItem (snd (deleteExpense id (snd (deleteExpense id st))))
     = getItem (snd (deleteExpense id st)).
Proof.
  split_and!.
  - intros id' Hne. unfold storedById. rewrite getItem_deleteExpense.
    apply list_find_filter_keeps. intros x Hx Hid. apply Hne. congruence.
  - unfold storedById. intros Hnone. rewrite getItem_deleteExpense.
    destruct (list_find _ (getItem st)) as [[i x]|] eqn:Hfind; [done|].
    apply list_find_None in Hfind.
    induction Hfind as [|x l Hx Hl IH]; [done|].
    rewrite filter_cons_True by done. by rewrite IH.
  - rewrite !getItem_deleteExpense.
    apply list_filter_filter_l. tauto.
Qed.

End ProviderInvariants.

Lemma employee_view_stays_own_witness :
  Forall (fun e => submittedBy e = "4")
    (expenses (snd (deleteExpense "2" (session emily)))).
Proof.
  destruct (employee_view_stays_own (session emily) emily eq_refl eq_refl)
    as (_ & _ & Hdel & _); [constructor|].
  apply Hdel.
Defined.

Lemma created_expense_is_found_witness :
  let data :=
    mkData "Client Dinner" 45.2%float "2023-10-25" meals "Dinner" draft None
           None None None None None None None None in
  exists e,
    fst (createExpense data "1698915600000" "2023-11-02T09:00:00Z" (session emily))
    = Returned e
    /\ storedById "1698915600000"
         (snd (createExpense data "1698915600000" "2023-11-02T09:00:00Z"
                 (session emily))) = Some e
    /\ getExpenseById "1698915600000"
         (snd (createExpense data "1698915600000" "2023-11-02T09:00:00Z"
                 (session emily))) = Some e.
Proof.
  destruct (created_expense_is_found
              (mkData "Client Dinner" 45.2%float "2023-10-25" meals "Dinner"
                      draft None None None None None None None None None)
              "1698915600000" "2023-11-02T09:00:00Z" (session emily) emily)
    as (e & He & _ & Hstored & Hfound);
    [reflexivity | apply (bool_decide_unpack _); vm_compute; exact I
    | reflexivity |].
  exists e. by split_and!.
Defined.

Lemma error_is_never_cleared_witness :
  let failed := snd (updateExpense "404" (statusOnly submitted) (session john)) in
  is_Some (error failed)
  /\ is_Some (error (snd (submitExpense "2" failed))).
Proof.
  intros failed.
  assert (Herr : is_Some (error failed)) by (vm_compute; eauto).
  split; [exact Herr|].
  destruct (error_is_never_cleared failed Herr) as (_ & _ & _ & Hsub & _).
  apply Hsub.
Defined.

Lemma approve_replaces_comments_witness :
  comments newLaptop
  = Some "Please use the standard equipment request process instead"
  /\ comments <$> storedById "3"
       (snd (approveExpense "3" None "2023-11-02T09:00:00Z" (session sarah)))
     = Some None.
Proof.
  split; [reflexivity|].
  destruct (approve_replaces_comments (session sarah) sarah "3" None
              "2023-11-02T09:00:00Z" newLaptop eq_refl)
    as (e' & _ & Hstored & Hcomments & _); [vm_compute; reflexivity|].
  rewrite Hstored. simpl. by rewrite Hcomments.
Defined.

(** ** The effect on mount *)

(** X11.  The initial expenses are written only into an absent store.  A
    store that exists is taken as it is, the empty one too; since a delete
    always writes the store, what was deleted stays deleted over a reload,
    and a reload after a reload changes nothing. *)
Theorem reload_seeds_absent_store_only id st :
  (stored st = None -> getItem (initExpenses st) = INITIAL_EXPENSES)
  /\ (forall l, stored st = Some l -> getItem (initExpenses st) = l)
  /\ getItem (initExpenses (snd (deleteExpense id st)))
     = filter (fun e => expense_id e <> id) (getItem st)
  /\ initExpenses (initExpenses st) = initExpenses st.
Proof.
  unfold initExpenses. split_and!.
  - intros Hs. rewrite Hs. reflexivity.
  - intros l Hs. rewrite Hs. unfold getItem. simpl. by rewrite Hs.
  - reflexivity.
  - destruct st as [who [l|] shown busy failed]; reflexivity.
Qed.

(** ** The detail page at work *)

Section PageAtWork.
Context {num : Type}.
Implicit Types (st : Ctx num) (e old : Expense num) (id : string).

Lemma pageExpense_visible id st e :
  truthy id = true -> getExpenseById id st = Some e ->
  pageExpense (Some id) st = Some e.
Proof. intros Hid He. unfold pageExpense. by rewrite Hid. Qed.

(** X12.  With nobody logged in the detail page is inert: no control is
    rendered, and no click, whichever, changes the state or raises a
    toast. *)
Theorem logged_out_page_is_inert st pid (c : Click) :
  user st = None -> click pid c st = (None, st).
Proof.
  intros Hu. unfold click, canDelete, canSubmit, canReview. rewrite Hu.
  by destruct (loading st), c.
Qed.

(** X13.  A manager or an admin who approves on the page of a submitted
    expense, the provider not loading and the record shown being the one
    stored under the id, gets the toast 'Expense approved', and the
    expense is stored as approved, with the reviewer stamped and the text
    of the review box as comments. *)
Theorem reviewer_approves_on_page st u id (box nowIso : string) e :
  user st = Some u -> user_role u = manager \/ user_role u = admin ->
  loading st = false ->
  truthy id = true ->
  getExpenseById id st = Some e -> storedById id st = Some e ->
  status e = submitted ->
  exists st' e',
    click (Some id) (ClickApprove box nowIso) st
    = (Some (toast_success "Expense approved"), st')
    /\ storedById id st' = Some e'
    /\ status e' = approved
    /\ reviewedBy e' = Some (user_id u)
    /\ reviewedAt e' = Some nowIso
    /\ comments e' = Some box
    /\ submission e' = submission e.
Proof.
  intros Hu Hrole Hidle Hid Hvis [i Hfind]%storedById_Some Hst.
  set (d := reviewData (num := num) approved u nowIso (Some box)).
  exists (snd (updateExpense id d st)), (spread e d).
  assert (Hguard : canReview st (Some e) = true).
  { unfold canReview, checkRole. rewrite Hu, Hst.
    destruct Hrole as [-> | ->]; by vm_compute. }
  unfold click. rewrite Hidle, (pageExpense_visible _ _ _ Hid Hvis), Hguard.
  unfold handleApprove. rewrite (pageReady_visible _ _ _ Hid Hvis).
  unfold approveExpense. rewrite Hu. fold d.
  split_and!; try done.
  - by rewrite (updateExpense_found _ _ _ _ _ Hfind).
  - by apply (storedById_update _ _ _ i).
Qed.

(** X14.  The owner who submits on the page of a draft, the provider not
    loading and the record shown being the one stored under the id, gets
    the toast 'Expense submitted for approval', and the expense is stored
    as submitted with no other field changed.  A delete that is not
    confirmed changes nothing; a confirmed one removes the expense. *)
Theorem owner_submits_on_page st u id e :
  user st = Some u -> submittedBy e = user_id u ->
  loading st = false ->
  truthy id = true ->
  getExpenseById id st = Some e -> storedById id st = Some e ->
  status e = draft ->
  (exists st',
     click (Some id) ClickSubmit st
     = (Some (toast_success "Expense submitted for approval"), st')
     /\ storedById id st' = Some (spread e (statusOnly submitted)))
  /\ click (Some id) (ClickDelete false) st = (None, st)
  /\ (exists st',
        click (Some id) (ClickDelete true) st
        = (Some (toast_success "Expense deleted successfully"), st')
        /\ storedById id st' = None
        /\ getExpenseById id st' = None).
Proof.
  intros Hu Hown Hidle Hid Hvis [i Hfind]%storedById_Some Hst.
  assert (Hguard : canSubmit st (Some e) = true /\ canDelete st (Some e) = true).
  { unfold canSubmit, canDelete. rewrite Hu, Hst, Hown.
    by rewrite !bool_decide_eq_true_2. }
  destruct Hguard as [Hsub Hdel].
  unfold click. rewrite Hidle, (pageExpense_visible _ _ _ Hid Hvis), Hsub, Hdel.
  unfold handleSubmit, handleDelete.
  rewrite (pageReady_visible _ _ _ Hid Hvis). split_and!.
  - exists (snd (submitExpense id st)). unfold submitExpense.
    rewrite (updateExpense_found _ _ _ _ _ Hfind). split; [done|].
    pose proof (storedById_update id (statusOnly submitted) st i e Hfind eq_refl)
      as Hs.
    by rewrite (updateExpense_found _ _ _ _ _ Hfind) in Hs.
  - done.
  - exists (snd (deleteExpense id st)). split; [done|]. split.
    + unfold storedById. rewrite getItem_deleteExpense.
      apply fmap_None, list_find_absent.
      by intros x [? _]%list_elem_of_filter.
    + unfold getExpenseById. apply fmap_None, list_find_absent.
      intros x Hx.
      apply (visible_stored
               (setItem (filter (fun e => expense_id e <> id) (getItem st))
                        (setLoading true st))) in Hx.
      rewrite getItem_setItem in Hx.
      by apply list_elem_of_filter in Hx as [? _].
Qed.

End PageAtWork.

Lemma logged_out_page_is_inert_witness :
  click (Some "2") (ClickApprove "" "2023-11-02T09:00:00Z")
    (setUser None (session sarah))
  = (None, setUser None (session sarah)).
Proof. apply logged_out_page_is_inert. reflexivity. Defined.

Lemma reviewer_approves_on_page_witness :
  exists st' e',
    click (Some "2") (ClickApprove "ok" "2023-11-02T09:00:00Z") (session sarah)
    = (Some (toast_success "Expense approved"), st')
    /\ storedById "2" st' = Some e'
    /\ status e' = approved
    /\ reviewedBy e' = Some "2"
    /\ reviewedAt e' = Some "2023-11-02T09:00:00Z"
    /\ comments e' = Some "ok"
    /\ submission e' = submission teamLunch.
Proof.
  apply (reviewer_approves_on_page (session sarah) sarah "2" "ok"
           "2023-11-02T09:00:00Z" teamLunch);
    [reflexivity | left; reflexivity | reflexivity | reflexivity
    | vm_compute; reflexivity | vm_compute; reflexivity | reflexivity].
Defined.

Lemma owner_submits_on_page_witness :
  let data :=
    mkData "Client Dinner" 45.2%float "2023-10-25" meals "Dinner" draft None
           None None None None None None None None in
  let st := snd (createExpense data "1698915600000" "2023-11-02T09:00:00Z"
                   (session emily)) in
  click (Some "1698915600000") (ClickDelete false) st = (None, st)
  /\ exists st',
       click (Some "1698915600000") ClickSubmit st
       = (Some (toast_success "Expense submitted for approval"), st')
       /\ status <$> storedById "1698915600000" st' = Some submitted.
Proof.
  intros data st.
  destruct (owner_submits_on_page st emily "1698915600000"
              (mkExpense "1698915600000" "Client Dinner" 45.2%float "2023-10-25"
                 meals "Dinner" draft None "4" "Emily Johnson"
                 "2023-11-02T09:00:00Z" None None None None))
    as ((st' & Hclick & Hstored) & Hdecline & _);
    [reflexivity | reflexivity | reflexivity | reflexivity
    | vm_compute; reflexivity | vm_compute; reflexivity | reflexivity |].
  split; [exact Hdecline|].
  exists st'. split; [exact Hclick|]. by rewrite Hstored.
Defined.

(** ** The expense form at work *)

Section FormAtWork.
Context {num : Type} `{JsNumber num}.
Variables (Number parseFloat : string -> num) (toString : num -> string).
Implicit Types (st : Ctx num) (e old : Expense num) (id : string)
  (f : FormState).

Lemma storedById_created (data : ExpenseData num) nowMs nowIso st u :
  user st = Some u -> nowMs ∉ map expense_id (getItem st) ->
  exists e,
    createExpense data nowMs nowIso st
    = (Returned e,
       setLoading false
         (loadExpenses (setItem (getItem st ++ [e]) (setLoading true st))))
    /\ e = mkExpense nowMs (d_title data) (d_amount data) (d_date data)
             (d_category data) (d_description data) draft (d_receiptUrl data)
             (user_id u) (user_name u) nowIso
             (d_reviewedBy data) (d_reviewedByName data) (d_reviewedAt data)
             (d_comments data)
    /\ exists i,
         list_find (fun x => expense_id x = nowMs) (getItem st ++ [e])
         = Some (i, e).
Proof.
  intros Hu Hfresh.
  destruct (createExpense_logged_in data nowMs nowIso st u Hu) as (e & Hc & He).
  exists e. split_and!; [done..|].
  assert (Hlast : snd <$> list_find (fun x => expense_id x = nowMs)
                            (getItem st ++ [e]) = Some e).
  { apply list_find_last; [by apply list_find_fresh|by rewrite He]. }
  destruct (list_find _ (getItem st ++ [e])) as [[i x]|]; simplify_eq/=.
  by exists i.
Qed.

(** X15.  The form tells a valid input by six conditions: the title and
    the description are not blank (not made of white space only), the date
    is not empty, and the amount is not empty, is a number and is not at
    most 0. *)
Theorem validateForm_true_iff f :
  validateForm Number f = true
  <-> allWhiteSpace (f_title f) = false
      /\ truthy (f_amount f) = true
      /\ num_isNaN (Number (f_amount f)) = false
      /\ num_leb (Number (f_amount f)) num_zero = false
      /\ truthy (f_date f) = true
      /\ allWhiteSpace (f_description f) = false.
Proof.
  unfold validateForm, formErrors. rewrite !trim_falsy.
  rewrite bool_decide_eq_true, !length_app.
  destruct (allWhiteSpace (f_title f)), (truthy (f_amount f)),
    (num_isNaN (Number (f_amount f))),
    (num_leb (Number (f_amount f)) num_zero), (truthy (f_date f)),
    (allWhiteSpace (f_description f)); simpl; split;
    (lia || (intros; intuition discriminate) || tauto).
Qed.


(** X17.  A new expense from the form: for a valid form, a logged-in user
    and an id that is not in the store yet, 'Save as Draft' stores the
    expense as a draft of this user with the fields of the form, and
    'Save & Submit' stores it as submitted; the toasts report each
    step. *)
Theorem new_expense_from_form f nowMs nowIso st u :
  validateForm Number f = true -> user st = Some u ->
  nowMs ∉ map expense_id (getItem st) ->
  let created s :=
    mkExpense nowMs (f_title f) (parseFloat (f_amount f)) (f_date f)
      (f_category f) (f_description f) s (Some (uploadedReceiptUrl f))
      (user_id u) (user_name u) nowIso None None None None in
  (fst (formSubmit Number parseFloat f None true nowMs nowIso st)
   = [toast_success "Expense created successfully"]
   /\ storedById nowMs
        (snd (formSubmit Number parseFloat f None true nowMs nowIso st))
      = Some (created draft))
  /\ (fst (formSubmit Number parseFloat f None false nowMs nowIso st)
      = [toast_success "Expense created successfully";
         toast_success "Expense submitted for approval"]
      /\ storedById nowMs
           (snd (formSubmit Number parseFloat f None false nowMs nowIso st))
         = Some (created submitted)).
Proof.
  intros Hv Hu Hfresh created.
  destruct (storedById_created (formData parseFloat f) nowMs nowIso st u Hu Hfresh)
    as (e & Hc & He & i & Hfind).
  assert (He' : e = created draft) by (rewrite He; reflexivity).
  unfold formSubmit. rewrite Hv, Hc. simpl. split.
  - split; [done|]. unfold storedById.
    change (getItem _) with (getItem st ++ [e]). rewrite Hfind. simpl.
    by rewrite He'.
  - unfold submitExpense.
    assert (Hid : expense_id e = nowMs) by by rewrite He.
    rewrite Hid.
    set (st1 := setLoading false
                  (loadExpenses (setItem (getItem st ++ [e]) (setLoading true st)))).
    assert (Hfind1 : list_find (fun x => expense_id x = nowMs) (getItem st1)
                     = Some (i, e)) by exact Hfind.
    pose proof (storedById_update nowMs (statusOnly submitted) st1 i e
                  Hfind1 eq_refl) as Hs.
    pose proof (updateExpense_found nowMs (statusOnly submitted) st1 i e Hfind1)
      as Hupd.
    destruct (updateExpense nowMs (statusOnly submitted) st1) as [r st2].
    injection Hupd as -> _. simpl in *. split; [done|].
    rewrite Hs. by rewrite He'.
Qed.

End FormAtWork.


Lemma new_expense_from_form_witness :
  let f := mkForm "Monitor" "2100" "2023-11-01" equipment "A second monitor"
             "" None in
  status <$> storedById "1698915600000"
    (snd (formSubmit numeral numeral f None false "1698915600000"
            "2023-11-02T09:00:00Z" (session john)))
  = Some submitted.
Proof.
  intros f.
  destruct (new_expense_from_form numeral numeral f "1698915600000"
              "2023-11-02T09:00:00Z" (session john) john)
    as (_ & _ & ->); [vm_compute; reflexivity | reflexivity | | reflexivity].
  apply (bool_decide_unpack _). vm_compute. exact I.
Defined.

(** ** The report page and the dashboard *)

Section Filters.
Context {num : Type} `{JsNumber num}.
Variables (dateOf : string -> option Z) (nextDay : Z -> Z).
Implicit Types (l : list (Expense num)) (filters : ReportFilters).

Lemma filter_all (P : Expense num -> Prop) `{!forall x, Decision (P x)} l :
  (forall x, P x) -> filter P l = l.
Proof.
  intros HP. induction l as [|x l IH]; [done|].
  by rewrite filter_cons_True, IH.
Qed.

Lemma filter_none (P : Expense num -> Prop) `{!forall x, Decision (P x)} l :
  (forall x, ~ P x) -> filter P l = [].
Proof.
  intros HP. induction l as [|x l IH]; [done|].
  by rewrite filter_cons_False.
Qed.

(** One stage of the effect: a filter that is applied or skipped. *)
Lemma stage_as_filter (b : bool) (P : Expense num -> Prop)
    `{!forall x, Decision (P x)} l :
  (if b then filter P l else l) = filter (fun e => b = true -> P e) l.
Proof.
  destruct b.
  - apply list_filter_iff. naive_solver.
  - symmetry. by apply filter_all.
Qed.

(** The four stages act as one filter. *)
Lemma applyFilters_as_filter filters l :
  applyFilters dateOf nextDay filters l
  = filter
      (fun e =>
         (negb (bool_decide (filterStatus filters = "all")) = true ->
          statusName (status e) = filterStatus filters)
         /\ (negb (bool_decide (filterCategory filters = "all")) = true ->
             categoryName (category e) = filterCategory filters)
         /\ (truthy (endDate filters) = true ->
             dateLt (dateOf (date e)) (nextDay <$> dateOf (endDate filters)) = true)
         /\ (truthy (startDate filters) = true ->
             dateGe (dateOf (date e)) (dateOf (startDate filters)) = true))
      l.
Proof.
  unfold applyFilters.
  rewrite (stage_as_filter (truthy (startDate filters))).
  rewrite (stage_as_filter (truthy (endDate filters))).
  rewrite (stage_as_filter (negb (bool_decide (filterCategory filters = "all")))).
  rewrite (stage_as_filter (negb (bool_decide (filterStatus filters = "all")))).
  rewrite !list_filter_filter. apply list_filter_iff. intros e. tauto.
Qed.

(** X18.  The filters of the report only ever drop expenses: what is
    reported is a sublist of the visible list, in its order; filtering
    what was filtered changes nothing; with the filters reset everything
    is reported; and under a category or a status filter every reported
    expense has that category, respectively that status. *)
Theorem report_filters_select filters l :
  applyFilters dateOf nextDay filters l `sublist_of` l
  /\ applyFilters dateOf nextDay filters (applyFilters dateOf nextDay filters l)
     = applyFilters dateOf nextDay filters l
  /\ applyFilters dateOf nextDay resetFilters l = l
  /\ (forall e, e ∈ applyFilters dateOf nextDay filters l ->
        (filterCategory filters <> "all" ->
         categoryName (category e) = filterCategory filters)
        /\ (filterStatus filters <> "all" ->
            statusName (status e) = filterStatus filters)).
Proof.
  split_and!.
  - rewrite applyFilters_as_filter. apply sublist_filter.
  - rewrite !applyFilters_as_filter. apply list_filter_filter_l. tauto.
  - done.
  - intros e. rewrite applyFilters_as_filter.
    intros [(Hs & Hc & _) _]%list_elem_of_filter. split.
    + intros Hne. apply Hc. by rewrite bool_decide_eq_false_2.
    + intros Hne. apply Hs. by rewrite bool_decide_eq_false_2.
Qed.

(** X19.  A date bound that is set but is not a date empties the report:
    with a non-empty start date, or end date, that does not parse, no
    expense is reported.  And under a date bound an expense whose own
    date does not parse is never reported. *)
Theorem invalid_date_empties_report filters l :
  (truthy (startDate filters) = true /\ dateOf (startDate filters) = None)
  \/ (truthy (endDate filters) = true /\ dateOf (endDate filters) = None) ->
  applyFilters dateOf nextDay filters l = []
  /\ forall filters' e,
       truthy (startDate filters') = true \/ truthy (endDate filters') = true ->
       dateOf (date e) = None ->
       e ∉ applyFilters dateOf nextDay filters' l.
Proof.
  intros Hbad. split.
  - rewrite applyFilters_as_filter.
    apply filter_none. intros e (_ & _ & Hend & Hstart).
    destruct Hbad as [[Ht Hd]|[Ht Hd]].
    + specialize (Hstart Ht). rewrite Hd in Hstart. unfold dateGe in Hstart.
      by destruct (dateOf (date e)).
    + specialize (Hend Ht). rewrite Hd in Hend. unfold dateLt in Hend.
      by destruct (dateOf (date e)).
  - intros filters' e Hset Hd. rewrite applyFilters_as_filter.
    intros [(_ & _ & Hend & Hstart) _]%list_elem_of_filter.
    rewrite Hd in Hend, Hstart.
    destruct Hset as [Ht|Ht]; [by specialize (Hstart Ht)|by specialize (Hend Ht)].
Qed.

End Filters.

Lemma invalid_date_empties_report_witness :
  applyFilters (fun _ => None) Z.succ (mkFilters "soon" "" "all" "all")
    INITIAL_EXPENSES = [].
Proof.
  apply (invalid_date_empties_report (fun _ => None) Z.succ
           (mkFilters "soon" "" "all" "all") INITIAL_EXPENSES).
  left. split; reflexivity.
Defined.

Section SetOf.
Context {A : Type} `{EqDecision A}.
Implicit Types (xs acc : list A).


End SetOf.

Section Breakdown.
Context {num : Type} `{JsNumber num} {K : Type} `{EqDecision K}.
Variable key : Expense num -> K.
Implicit Types (l : list (Expense num)) (o : list (K * num)) (k : K).




End Breakdown.

Section CategoryKeys.
Context {num : Type} `{JsNumber num}.
Implicit Types (l : list (Expense num)).


(** X21.  The three counters of the dashboard leave out the drafts, and
    nothing else: pending, approved and rejected expenses together with
    the drafts are all the visible expenses. *)
Theorem dashboard_counts_leave_out_drafts l :
  pendingExpenses l + approvedExpenses l + rejectedExpenses l
  + length (filter (fun e => status e = draft) l)
  = length l.
Proof.
  unfold pendingExpenses, approvedExpenses, rejectedExpenses.
  induction l as [|e l IH]; [done|].
  rewrite !filter_cons.
  destruct (status e) eqn:Hst; simpl;
    repeat (rewrite decide_False by done);
    repeat (rewrite decide_True by done); simpl; lia.
Qed.

End CategoryKeys.

Section ExactBreakdown.
Context {num : Type} `{ExactNumber num} {K : Type} `{EqDecision K}.
Variable key : Expense num -> K.
Implicit Types (l : list (Expense num)) (o : list (K * num)) (k : K).






End ExactBreakdown.

Section ExactReport.
Context {num : Type} `{ExactNumber num}.
Implicit Types (l : list (Expense num)).




End ExactReport.



(** ** Accounts and session *)

Section AuthFacts.
Variable encodeURIComponent : string -> string.
Implicit Types (a : Auth) (data : UserData).

Lemma email_taken email (users : list StoredUser) :
  existsb (fun u => bool_decide (su_email u = email)) users = true
  <-> email ∈ map su_email users.
Proof.
  induction users as [|s users IH]; simpl.
  - rewrite elem_of_nil. split; [discriminate|tauto].
  - rewrite elem_of_cons, orb_true_iff, IH, bool_decide_eq_true.
    split; (intros [?|?]; [by left|by right]).
Qed.

Lemma addUser_taken data nowMs a :
  ud_email data ∈ map su_email (getAllUsers a) ->
  addUser encodeURIComponent data nowMs a = (Threw "Email already exists", a).
Proof.
  intros Hin%email_taken. unfold addUser. by rewrite Hin.
Qed.

Lemma addUser_fresh data nowMs a :
  ud_email data ∉ map su_email (getAllUsers a) ->
  exists newUser,
    addUser encodeURIComponent data nowMs a
    = (Returned tt,
       mkAuth (auth_user a) (Some (getAllUsers a ++ [newUser]))
              (storedUser a) (auth_loading a))
    /\ su_id newUser = nowMs /\ su_name newUser = ud_name data
    /\ su_email newUser = ud_email data
    /\ su_password newUser = ud_password data
    /\ su_role newUser = ud_role data.
Proof.
  intros Hfresh. unfold addUser.
  destruct (existsb _ (getAllUsers a)) eqn:Hex.
  - by apply email_taken in Hex.
  - eexists. by split_and!.
Qed.

(** X24.  An email is registered once.  [addUser] with an email that an
    account already has throws 'Email already exists' and changes
    nothing; with a new email it appends the account, leaves the earlier
    accounts as they are and does not touch the session.  So, if the
    emails of the accounts are pairwise different, they stay so. *)
Theorem email_registered_once data nowMs a :
  NoDup (map su_email (getAllUsers a)) ->
  NoDup (map su_email (getAllUsers (snd (addUser encodeURIComponent data nowMs a))))
  /\ (ud_email data ∈ map su_email (getAllUsers a) ->
      addUser encodeURIComponent data nowMs a = (Threw "Email already exists", a))
  /\ (ud_email data ∉ map su_email (getAllUsers a) ->
      fst (addUser encodeURIComponent data nowMs a) = Returned tt
      /\ (exists newUser,
            getAllUsers (snd (addUser encodeURIComponent data nowMs a))
            = getAllUsers a ++ [newUser]
            /\ su_email newUser = ud_email data)
      /\ auth_user (snd (addUser encodeURIComponent data nowMs a)) = auth_user a
      /\ storedUser (snd (addUser encodeURIComponent data nowMs a))
         = storedUser a).
Proof.
  intros Hnd. split_and!.
  - destruct (decide (ud_email data ∈ map su_email (getAllUsers a))) as [Hin|Hin].
    + by rewrite (addUser_taken _ _ _ Hin).
    + destruct (addUser_fresh data nowMs a Hin) as (newUser & -> & _ & _ & He & _).
      change (NoDup (su_email <$> (getAllUsers a ++ [newUser]))).
      rewrite fmap_app. apply NoDup_app. split_and!; [done| |apply NoDup_singleton].
      simpl. intros x Hx ->%list_elem_of_singleton. apply Hin. by rewrite <- He.
  - apply addUser_taken.
  - intros Hin.
    destruct (addUser_fresh data nowMs a Hin) as (newUser & -> & _ & _ & He & _).
    split_and!; try done. by exists newUser.
Qed.

Lemma login_cases email password a :
  (list_find (fun u => su_email u = email /\ su_password u = password)
             (getAllUsers a) = None
   /\ login email password a
      = (Threw "Invalid credentials",
         mkAuth (auth_user a) (storedUsers a) (storedUser a) false))
  \/ (exists i found,
        list_find (fun u => su_email u = email /\ su_password u = password)
                  (getAllUsers a) = Some (i, found)
        /\ login email password a
           = (Returned tt,
              mkAuth (Some (userWithoutPassword found)) (storedUsers a)
                     (Some (userWithoutPassword found)) false)).
Proof.
  unfold login.
  destruct (list_find _ (getAllUsers a)) as [[i found]|]; [right|left]; eauto.
Qed.

(** X25.  Who registers can log in: after [addUser] with a new email, a
    login with this email and the password given succeeds and opens the
    session of the new user, with the id from the clock and the name,
    email and role given; with another password the login throws
    'Invalid credentials'. *)
Theorem registered_user_can_log_in data nowMs a :
  ud_email data ∉ map su_email (getAllUsers a) ->
  (exists a' u,
     login (ud_email data) (ud_password data)
           (snd (addUser encodeURIComponent data nowMs a)) = (Returned tt, a')
     /\ auth_user a' = Some u /\ storedUser a' = Some u
     /\ user_id u = nowMs /\ user_name u = ud_name data
     /\ user_email u = ud_email data /\ user_role u = ud_role data)
  /\ (forall wrong, wrong <> ud_password data ->
        fst (login (ud_email data) wrong
                   (snd (addUser encodeURIComponent data nowMs a)))
        = Threw "Invalid credentials").
Proof.
  intros Hfresh.
  destruct (addUser_fresh data nowMs a Hfresh)
    as (newUser & -> & Hid & Hname & Hemail & Hpw & Hrole).
  assert (Hnone : forall pw,
    list_find (fun u => su_email u = ud_email data /\ su_password u = pw)
              (getAllUsers a) = None).
  { intros pw. apply list_find_None, Forall_forall. intros s Hs [He _].
    apply Hfresh. rewrite <- He. by apply list_elem_of_fmap_2. }
  set (a1 := mkAuth (auth_user a) (Some (getAllUsers a ++ [newUser]))
                    (storedUser a) (auth_loading a)).
  cbn [snd].
  assert (Hlast : forall pw,
    list_find (fun u => su_email u = ud_email data /\ su_password u = pw)
              (getAllUsers a1)
    = prod_map (fun n => n + length (getAllUsers a)) id
        <$> list_find (fun u => su_email u = ud_email data /\ su_password u = pw)
                      [newUser]).
  { intros pw. apply (list_find_app_r _ (getAllUsers a) [newUser]), Hnone. }
  split.
  - exists (mkAuth (Some (userWithoutPassword newUser)) (storedUsers a1)
                   (Some (userWithoutPassword newUser)) false),
           (userWithoutPassword newUser).
    split_and!; try done. unfold login. rewrite Hlast.
    cbn [list_find]. by rewrite decide_True.
  - intros wrong Hwrong. unfold login. rewrite Hlast.
    cbn [list_find]. rewrite decide_False; [done|].
    intros [_ Hp]. apply Hwrong. congruence.
Qed.

(** X26.  A login succeeds exactly when some account has the email and
    the password.  A failed login throws 'Invalid credentials' and leaves
    the session as it was: whoever was logged in still is.  A successful
    one opens, and saves, the session of an account with this email,
    without its password. *)
Theorem login_outcome email password a :
  ((exists a', login email password a = (Returned tt, a'))
   <-> exists s, s ∈ getAllUsers a /\ su_email s = email
                 /\ su_password s = password)
  /\ (forall msg a',
        login email password a = (Threw msg, a') ->
        msg = "Invalid credentials" /\ auth_user a' = auth_user a
        /\ storedUser a' = storedUser a /\ storedUsers a' = storedUsers a)
  /\ (forall a',
        login email password a = (Returned tt, a') ->
        exists s, s ∈ getAllUsers a /\ su_password s = password
                  /\ auth_user a' = Some (userWithoutPassword s)
                  /\ storedUser a' = Some (userWithoutPassword s)
                  /\ user_email (userWithoutPassword s) = email
                  /\ storedUsers a' = storedUsers a).
Proof.
  destruct (login_cases email password a)
    as [[Hnone ->]|(i & found & Hfind & ->)].
  - apply list_find_None in Hnone. split_and!.
    + split; [by intros [a' ?]|]. intros (s & Hs & He & Hp).
      exfalso. by apply (proj1 (Forall_forall _ _) Hnone s Hs).
    + by intros msg a' [= <- <-].
    + by intros a' ?.
  - apply list_find_Some in Hfind as (Hi & [He Hp] & _).
    apply list_elem_of_lookup_2 in Hi. split_and!.
    + split; eauto.
    + by intros msg a' ?.
    + intros a' [= <-]. exists found. by split_and!.
Qed.

(** X27.  The session outlives a reload of the page, a logout does not:
    after a successful login a reload restores the same user, after a
    logout a reload finds nobody and no role check holds; logging out
    twice is logging out once.  The accounts are seeded only when there
    are none stored. *)
Theorem session_survives_reload email password a :
  (forall a', login email password a = (Returned tt, a') ->
     auth_user (reload a') = auth_user a' /\ is_Some (auth_user a'))
  /\ auth_user (reload (logout a)) = None
  /\ (forall roles, checkRole roles (auth_user (logout a)) = false)
  /\ logout (logout a) = logout a
  /\ (is_Some (storedUsers a) -> getAllUsers (reload a) = getAllUsers a)
  /\ (storedUsers a = None -> getAllUsers (reload a) = INITIAL_MOCK_USERS).
Proof.
  split_and!.
  - intros a' Hlogin.
    destruct (login_cases email password a)
      as [[_ Heq]|(i & found & _ & Heq)]; rewrite Heq in Hlogin;
      simplify_eq/=. eauto.
  - done.
  - done.
  - done.
  - intros [l Hl]. unfold reload, authInit, getAllUsers. simpl. by rewrite Hl.
  - intros Hl. unfold reload, authInit, getAllUsers. simpl. by rewrite Hl.
Qed.

End AuthFacts.

Lemma email_registered_once_witness :
  let a := reload (mkAuth None None None true) in
  let data := mkUserData "Ada" "employee@example.com" "secret" employee None None in
  NoDup (map su_email (getAllUsers a))
  /\ addUser (fun s => s) data "1698915600000" a
     = (Threw "Email already exists", a).
Proof.
  intros a data.
  assert (Hnd : NoDup (map su_email (getAllUsers a))).
  { apply (bool_decide_unpack _). vm_compute. exact I. }
  split; [exact Hnd|].
  destruct (email_registered_once (fun s => s) data "1698915600000" a Hnd)
    as (_ & Htaken & _).
  apply Htaken. apply (bool_decide_unpack _). vm_compute. exact I.
Defined.

Lemma registered_user_can_log_in_witness :
  let a := reload (mkAuth None None None true) in
  let data := mkUserData "Ada" "ada@example.com" "secret" manager None None in
  exists a' u,
    login "ada@example.com" "secret"
          (snd (addUser (fun s => s) data "1698915600000" a)) = (Returned tt, a')
    /\ auth_user a' = Some u /\ storedUser a' = Some u
    /\ user_id u = "1698915600000" /\ user_name u = "Ada"
    /\ user_email u = "ada@example.com" /\ user_role u = manager.
Proof.
  intros a data.
  apply (registered_user_can_log_in (fun s => s) data "1698915600000" a).
  apply (bool_decide_unpack _). vm_compute. exact I.
Defined.
